(** * Binotto-back: the /analyze-obras aggregation engine

    A shallow embedding of the metric aggregation code of the server
    (UTIL / CONSTS and the /analyze-obras route): [money],
    [normalizeMes], [summarizeBlock], [monthDelta] and the body of the
    route handler, followed by the properties of the specification.
    The CORS allow list, the cleaning of the text of the narrative
    service, the /analyze route and [extractStructured] of the earlier
    server are embedded after them, with further properties.

    Conventions of the embedding.
    - A JavaScript number is an IEEE 754 binary64 value: Rocq's primitive
      [float], whose [+ - * /] are the same operations.  Equality of
      floats below is Leibniz equality (one NaN, [+0] and [-0] distinct).
    - A row is the object accepted by [RowSchema]: every numeric field is
      either absent ([None]) or a number ([Some v], where [v] may be any
      float, NaN included).  Integer years are kept in [Z].
    - Strings are sequences of code units in the ASCII range; [trim] and
      [toUpperCase] follow ECMAScript on that range.
    - The loop counter [n] of [summarizeBlock] is a natural number: an
      array holds fewer than 2^32 elements, a range in which the
      increments of a binary64 counter are exact. *)

From Stdlib Require Import List String Ascii ZArith Bool Arith Lia.
From Stdlib Require Import PrimFloat Uint63.
Import ListNotations.

Local Open Scope string_scope.
Local Open Scope list_scope.

(** ** JavaScript primitives used by the server *)

Module JS.

(** [ToBoolean] on a number: [0], [-0] and [NaN] are falsy. *)
Definition truthy (x : float) : bool :=
  negb (PrimFloat.is_zero x || PrimFloat.is_nan x).

(** [ToBoolean] on a string: only the empty string is falsy. *)
Definition truthy_str (s : string) : bool :=
  negb (s =? "").

(** [ToBoolean] on an optional integer ([undefined] or a number). *)
Definition truthy_int (x : option Z) : bool :=
  match x with
  | None => false
  | Some z => negb (z =? 0)%Z
  end.

(** [a === b] on optional integers. *)
Definition strict_eq_int (a b : option Z) : bool :=
  match a, b with
  | Some x, Some y => (x =? y)%Z
  | None, None => true
  | _, _ => false
  end.

(** [a ?? b] *)
Definition nullish {A : Type} (a : option A) (b : A) : A :=
  match a with
  | Some v => v
  | None => b
  end.

(** [Number.isNaN] *)
Definition isNaN (x : float) : bool := PrimFloat.is_nan x.

(** The number held by an exact counter. *)
Definition of_count (n : nat) : float :=
  PrimFloat.of_uint63 (Uint63.of_Z (Z.of_nat n)).

(** White space of [String.prototype.trim] in the ASCII range:
    TAB, LF, VT, FF, CR and SPACE. *)
Definition isWhite (c : ascii) : bool :=
  let n := nat_of_ascii c in
  (n =? 32)%nat || ((9 <=? n)%nat && (n <=? 13)%nat).

Fixpoint trimStart (s : string) : string :=
  match s with
  | EmptyString => EmptyString
  | String c s' => if isWhite c then trimStart s' else s
  end.

Fixpoint trimEnd (s : string) : string :=
  match s with
  | EmptyString => EmptyString
  | String c s' =>
      match trimEnd s' with
      | EmptyString => if isWhite c then EmptyString else String c EmptyString
      | t => String c t
      end
  end.

Definition trim (s : string) : string := trimEnd (trimStart s).

(** [s.slice(0, k)] *)
Definition slice0 (k : nat) (s : string) : string := substring 0 k s.

Definition upper (c : ascii) : ascii :=
  let n := nat_of_ascii c in
  if ((97 <=? n)%nat && (n <=? 122)%nat)%bool then ascii_of_nat (n - 32) else c.

Fixpoint toUpperCase (s : string) : string :=
  match s with
  | EmptyString => EmptyString
  | String c s' => String (upper c) (toUpperCase s')
  end.

(** [l.map((x, idx) => f x idx)] *)
Fixpoint mapi_from {A B : Type} (f : A -> nat -> B) (k : nat) (l : list A) : list B :=
  match l with
  | [] => []
  | x :: l' => f x k :: mapi_from f (S k) l'
  end.

Definition mapi {A B : Type} (f : A -> nat -> B) (l : list A) : list B :=
  mapi_from f 0 l.

(** An object whose properties are numbers, in insertion order. *)
Definition NumObj : Set := list (string * float).

(** [o[k]] *)
Fixpoint get (o : NumObj) (k : string) : option float :=
  match o with
  | [] => None
  | (k', v) :: o' => if k' =? k then Some v else get o' k
  end.

(** [o[k] = v]: an existing property keeps its place, a new one is
    added last. *)
Fixpoint set (o : NumObj) (k : string) (v : float) : NumObj :=
  match o with
  | [] => [(k, v)]
  | (k', v') :: o' => if k' =? k then (k', v) :: o' else (k', v') :: set o' k v
  end.

(** [Object.keys(o)] *)
Definition keys (o : NumObj) : list string := map fst o.

End JS.

(** ** UTIL / CONSTS *)

Definition MONTHS_ORDER : list string :=
  ["JAN"; "FEV"; "MAR"; "ABR"; "MAI"; "JUN";
   "JUL"; "AGO"; "SET"; "OUT"; "NOV"; "DEZ"].

(** [const money = (v) => Number(v) || 0] on a number. *)
Definition money (v : float) : float :=
  if JS.truthy v then v else 0%float.

(** [const normalizeMes = (m) => String(m || "").trim().slice(0, 3).toUpperCase()] *)
Definition normalizeMes (m : string) : string :=
  JS.toUpperCase (JS.slice0 3 (JS.trim (if JS.truthy_str m then m else ""))).

(** The numeric properties of a row ([RowSchema]). *)
Module Key.
Inductive t : Set :=
| prazo_pedido_meta | prazo_pedido_real
| prazo_entrega_meta | prazo_entrega_real
| pontualidade_meta | pontualidade_real
| negociacao_meta | negociacao_real
| prazo_pedido_perc | prazo_entrega_perc
| pontualidade_perc | negociacao_perc.

Definition index (k : t) : nat :=
  match k with
  | prazo_pedido_meta => 0 | prazo_pedido_real => 1
  | prazo_entrega_meta => 2 | prazo_entrega_real => 3
  | pontualidade_meta => 4 | pontualidade_real => 5
  | negociacao_meta => 6 | negociacao_real => 7
  | prazo_pedido_perc => 8 | prazo_entrega_perc => 9
  | pontualidade_perc => 10 | negociacao_perc => 11
  end.

Definition eqb (a b : t) : bool := (index a =? index b)%nat.

Definition all : list t :=
  [prazo_pedido_meta; prazo_pedido_real; prazo_entrega_meta; prazo_entrega_real;
   pontualidade_meta; pontualidade_real; negociacao_meta; negociacao_real;
   prazo_pedido_perc; prazo_entrega_perc; pontualidade_perc; negociacao_perc].
End Key.

Module Row.
Record t : Set := mk {
  obra : string;
  ano : option Z;
  mes : string;
  prazo_pedido_meta : option float;
  prazo_pedido_real : option float;
  prazo_entrega_meta : option float;
  prazo_entrega_real : option float;
  pontualidade_meta : option float;
  pontualidade_real : option float;
  negociacao_meta : option float;
  negociacao_real : option float;
  prazo_pedido_perc : option float;
  prazo_entrega_perc : option float;
  pontualidade_perc : option float;
  negociacao_perc : option float
}.

(** [r[k]] for a numeric property [k]. *)
Definition get (r : t) (k : Key.t) : option float :=
  match k with
  | Key.prazo_pedido_meta => prazo_pedido_meta r
  | Key.prazo_pedido_real => prazo_pedido_real r
  | Key.prazo_entrega_meta => prazo_entrega_meta r
  | Key.prazo_entrega_real => prazo_entrega_real r
  | Key.pontualidade_meta => pontualidade_meta r
  | Key.pontualidade_real => pontualidade_real r
  | Key.negociacao_meta => negociacao_meta r
  | Key.negociacao_real => negociacao_real r
  | Key.prazo_pedido_perc => prazo_pedido_perc r
  | Key.prazo_entrega_perc => prazo_entrega_perc r
  | Key.pontualidade_perc => pontualidade_perc r
  | Key.negociacao_perc => negociacao_perc r
  end.

(** A row with the required properties only. *)
Definition bare (o : string) (a : option Z) (m : string) : t :=
  mk o a m None None None None None None None None None None None None.

(** [{ ...r, [k]: v }] for a numeric property. *)
Definition with_num (r : t) (k : Key.t) (v : float) : t :=
  let pick k' := if Key.eqb k k' then Some v else get r k' in
  mk (obra r) (ano r) (mes r)
     (pick Key.prazo_pedido_meta) (pick Key.prazo_pedido_real)
     (pick Key.prazo_entrega_meta) (pick Key.prazo_entrega_real)
     (pick Key.pontualidade_meta) (pick Key.pontualidade_real)
     (pick Key.negociacao_meta) (pick Key.negociacao_real)
     (pick Key.prazo_pedido_perc) (pick Key.prazo_entrega_perc)
     (pick Key.pontualidade_perc) (pick Key.negociacao_perc).
End Row.

(** The object [{ meta, real, perc }] returned by [summarizeBlock]. *)
Module Block.
Record t : Set := mk { meta : float; real : float; perc : float }.

Definition zero : t := mk 0%float 0%float 0%float.

(** The block as an object: its own properties in creation order. *)
Definition entries (b : t) : JS.NumObj :=
  [("meta", meta b); ("real", real b); ("perc", perc b)].
End Block.

(** The three accumulators of the [forEach] loop of [summarizeBlock]. *)
Record Acc : Set := mkAcc { acc_meta : float; acc_real : float; acc_n : nat }.

Definition acc0 : Acc := mkAcc 0%float 0%float 0.

(** One iteration of [rows.forEach((r) => { ... })]. *)
Definition summarizeStep (metaKey realKey : Key.t) (isPercent : bool)
    (a : Acc) (r : Row.t) : Acc :=
  let m := JS.nullish (Row.get r metaKey) 0%float in
  let v := JS.nullish (Row.get r realKey) 0%float in
  if isPercent then
    mkAcc (if negb (JS.isNaN m) then (acc_meta a + m)%float else acc_meta a)
          (if negb (JS.isNaN v) then (acc_real a + v)%float else acc_real a)
          (acc_n a + 1)
  else
    mkAcc (acc_meta a + money m)%float
          (acc_real a + money v)%float
          (acc_n a).

(** [const perc = meta ? (real / meta) * 100 : 0] *)
Definition percOf (meta real : float) : float :=
  if JS.truthy meta then ((real / meta) * 100)%float else 0%float.

(** [function summarizeBlock(rows, metaKey, realKey, isPercent = false)] *)
Definition summarizeBlock (rows : list Row.t) (metaKey realKey : Key.t)
    (isPercent : bool) : Block.t :=
  let a := fold_left (summarizeStep metaKey realKey isPercent) rows acc0 in
  let n := acc_n a in
  let meta :=
    if isPercent
    then (if negb (n =? 0)%nat then (acc_meta a / JS.of_count n)%float else 0%float)
    else acc_meta a in
  let real :=
    if isPercent
    then (if negb (n =? 0)%nat then (acc_real a / JS.of_count n)%float else 0%float)
    else acc_real a in
  Block.mk meta real (percOf meta real).

(** [function monthDelta(curr, prev)]; [None] stands for a falsy
    argument ([null]). *)
Definition monthDelta (curr prev : option Block.t) : JS.NumObj :=
  match curr, prev with
  | Some c, Some p =>
      fold_left
        (fun out k =>
           match JS.get (Block.entries c) k, JS.get (Block.entries p) k with
           | Some x, Some y => JS.set out k (x - y)%float
           | _, _ => out
           end)
        (JS.keys (Block.entries c)) []
  | _, _ => []
  end.

(** ** The /analyze-obras route *)

(** One element of [months]. *)
Module Month.
Record t : Set := mk {
  mes : string;
  prazo_pedido : Block.t;
  prazo_entrega : Block.t;
  pontualidade : Block.t;
  negociacao : Block.t
}.
End Month.

(** The [delta] property of an element of [monthsWithDelta]. *)
Module Delta.
Record t : Set := mk {
  prazo_pedido : JS.NumObj;
  prazo_entrega : JS.NumObj;
  pontualidade : JS.NumObj;
  negociacao : JS.NumObj
}.

Definition empty : t := mk [] [] [] [].
End Delta.

(** One element of [monthsWithDelta]: [{ ...row, delta }]. *)
Module MonthD.
Record t : Set := mk {
  mes : string;
  prazo_pedido : Block.t;
  prazo_entrega : Block.t;
  pontualidade : Block.t;
  negociacao : Block.t;
  delta : Delta.t
}.
End MonthD.

Module Ytd.
Record t : Set := mk {
  prazo_pedido : Block.t;
  prazo_entrega : Block.t;
  pontualidade : Block.t;
  negociacao : Block.t
}.
End Ytd.

(** [parsed.data]: the body accepted by [AnalyzeObrasSchema]. *)
Module Req.
Record t : Set := mk {
  ano : option Z;
  obra : option string;
  alvoPct : float;
  rows : list Row.t
}.
End Req.

(** [resumoIA], the summary handed to the narrative service. *)
Module Resumo.
Record t : Set := mk {
  obra : string;
  ano : option Z;
  alvoPct : float;
  ytd : Ytd.t;
  meses : list MonthD.t
}.
End Resumo.

(** A value produced by [JSON.parse]. *)
#[local] Unset Elimination Schemes.
Inductive Json : Type :=
| JNull
| JBool (b : bool)
| JNum (x : float)
| JStr (s : string)
| JArr (items : list Json)
| JObj (props : list (string * Json)).
#[local] Set Elimination Schemes.

(** The end of a call that may throw; what is thrown is an [Error]
    with its [message]. *)
Inductive Outcome (A : Type) : Type :=
| Returned (value : A)
| Thrown (message : string).
Arguments Returned {A} value.
Arguments Thrown {A} message.

(** The result of [AnalyzeObrasSchema.safeParse(req.body)]. *)
Inductive SafeParse : Type :=
| Success (data : Req.t)
| Failure (issues : list string).

(** What the route sends back. *)
Inductive Response : Type :=
| Status400 (issues : list string)
| Json200 (ok : bool) (obra : string) (ano : option Z) (ytd : Ytd.t)
    (meses : list MonthD.t) (analise : Json)
| Status500 (error : string).

Section Route.

(** [new Date().getFullYear()] at the time of the request. *)
Variable currentYear : Z.

(** [await openai.responses.create({ ... })]: the service is given the
    prompt built from [resumoIA]; it returns a response, of which the
    route reads [output_text] (possibly absent), or throws. *)
Variable openai_create : Resumo.t -> Outcome (option string).

(** [.replace(/^```json\s*/i, "").replace(/```$/i, "")] *)
Variable stripFences : string -> string.

(** [JSON.parse]; [None] when it throws a [SyntaxError]. *)
Variable JSON_parse : string -> option Json.

(** The callback of [rows.map] that builds [norm]. *)
Definition normRow (ano : option Z) (r : Row.t) : Row.t :=
  Row.mk (Row.obra r)
    (Some (JS.nullish (Row.ano r) (JS.nullish ano currentYear)))
    (normalizeMes (Row.mes r))
    (Row.prazo_pedido_meta r) (Row.prazo_pedido_real r)
    (Row.prazo_entrega_meta r) (Row.prazo_entrega_real r)
    (Row.pontualidade_meta r) (Row.pontualidade_real r)
    (Row.negociacao_meta r) (Row.negociacao_real r)
    (Row.prazo_pedido_perc r) (Row.prazo_entrega_perc r)
    (Row.pontualidade_perc r) (Row.negociacao_perc r).

Definition norm (data : Req.t) : list Row.t :=
  map (normRow (Req.ano data)) (Req.rows data).

(** [const obraSel = obra && obra !== "Todas" ? obra : null] *)
Definition obraSel (obra : option string) : option string :=
  match obra with
  | Some o => if JS.truthy_str o && negb (o =? "Todas") then Some o else None
  | None => None
  end.

(** The predicate of [norm.filter]: [obraSel ? r.obra === obraSel : true] *)
Definition obraTest (sel : option string) (r : Row.t) : bool :=
  match sel with
  | Some o => if JS.truthy_str o then Row.obra r =? o else true
  | None => true
  end.

Definition filtered (data : Req.t) : list Row.t :=
  filter (obraTest (obraSel (Req.obra data))) (norm data).

(** [!ano || r.ano === ano] *)
Definition anoTest (ano : option Z) (r : Row.t) : bool :=
  negb (JS.truthy_int ano) || JS.strict_eq_int (Row.ano r) ano.

(** [const rs = filtered.filter((r) => r.mes === m && (!ano || r.ano === ano))] *)
Definition bucket (data : Req.t) (m : string) : list Row.t :=
  filter (fun r => (Row.mes r =? m) && anoTest (Req.ano data) r) (filtered data).

(** The callback of [MONTHS_ORDER.map] on a bucket [rs]. *)
Definition monthOf (rs : list Row.t) (m : string) : Month.t :=
  let prazoPedido :=
    summarizeBlock rs Key.prazo_pedido_meta Key.prazo_pedido_real false in
  let prazoEntrega :=
    summarizeBlock rs Key.prazo_entrega_meta Key.prazo_entrega_real false in
  let pontualidade :=
    summarizeBlock rs Key.pontualidade_meta Key.pontualidade_real true in
  let negociacao :=
    summarizeBlock rs Key.negociacao_meta Key.negociacao_real true in
  Month.mk m prazoPedido prazoEntrega pontualidade negociacao.

Definition months (data : Req.t) : list Month.t :=
  map (fun m => monthOf (bucket data m) m) MONTHS_ORDER.

(** The callback of [months.map((row, idx) => ...)]. *)
Definition withDelta (months : list Month.t) (row : Month.t) (idx : nat) : MonthD.t :=
  let prev := if (0 <? idx)%nat then nth_error months (idx - 1) else None in
  let d (f : Month.t -> Block.t) : JS.NumObj :=
    match prev with
    | Some p => monthDelta (Some (f row)) (Some (f p))
    | None => []
    end in
  MonthD.mk (Month.mes row)
    (Month.prazo_pedido row) (Month.prazo_entrega row)
    (Month.pontualidade row) (Month.negociacao row)
    (Delta.mk (d Month.prazo_pedido) (d Month.prazo_entrega)
              (d Month.pontualidade) (d Month.negociacao)).

Definition monthsWithDelta (data : Req.t) : list MonthD.t :=
  JS.mapi (withDelta (months data)) (months data).

Definition ytd (data : Req.t) : Ytd.t :=
  let rs := filtered data in
  Ytd.mk
    (summarizeBlock rs Key.prazo_pedido_meta Key.prazo_pedido_real false)
    (summarizeBlock rs Key.prazo_entrega_meta Key.prazo_entrega_real false)
    (summarizeBlock rs Key.pontualidade_meta Key.pontualidade_real true)
    (summarizeBlock rs Key.negociacao_meta Key.negociacao_real true).

(** [const resumoIA = { obra: obraSel || "Todas", ano, alvoPct, ytd, meses: monthsWithDelta }] *)
Definition resumoIA (data : Req.t) : Resumo.t :=
  Resumo.mk
    (match obraSel (Req.obra data) with
     | Some o => if JS.truthy_str o then o else "Todas"
     | None => "Todas"
     end)
    (Req.ano data) (Req.alvoPct data) (ytd data) (monthsWithDelta data).

(** [String(resp.output_text || "").trim().replace(...).replace(...)] *)
Definition rawOf (output_text : option string) : string :=
  let text := JS.nullish output_text "" in
  stripFences (JS.trim (if JS.truthy_str text then text else "")).

(** [let analise = {}; try { ... analise = JSON.parse(raw); } catch (e) { console.warn(...) }] *)
Definition analise (s : Resumo.t) : Json :=
  match openai_create s with
  | Thrown _ => JObj []
  | Returned output_text =>
      match JSON_parse (rawOf output_text) with
      | Some j => j
      | None => JObj []
      end
  end.

(** The narrative service fails on the summary [s]: the call throws, or
    the text it returns is not parseable. *)
Definition narrativeFails (s : Resumo.t) : Prop :=
  match openai_create s with
  | Thrown _ => True
  | Returned output_text => JSON_parse (rawOf output_text) = None
  end.

(** The handler of [app.post("/analyze-obras", ...)], from the result
    of [safeParse] to the response. *)
Definition analyzeObras (parsed : SafeParse) : Response :=
  match parsed with
  | Failure issues => Status400 issues
  | Success data =>
      let s := resumoIA data in
      Json200 true (Resumo.obra s) (Resumo.ano s) (ytd data)
        (monthsWithDelta data) (analise s)
  end.

End Route.

(** ** Reference definitions for the statements *)

(** The coercion applied to a property in summed mode:
    [money(Number(r[key] ?? 0))]. *)
Definition coerceNumber (x : option float) : float :=
  money (JS.nullish x 0%float).

(** The number read from a property in percent mode: [Number(r[key] ?? 0)]. *)
Definition readNumber (x : option float) : float :=
  JS.nullish x 0%float.

(** Left-to-right sum, from [acc]. *)
Definition sumFrom (acc : float) (vs : list float) : float :=
  fold_left PrimFloat.add vs acc.

(** Left-to-right sum in which a NaN leaves the running sum as it is. *)
Definition sumSkipNaNFrom (acc : float) (vs : list float) : float :=
  fold_left (fun s v => if PrimFloat.is_nan v then s else (s + v)%float) vs acc.

(** The running sum divided by the row count, [0] for no row. *)
Definition meanOver (n : nat) (s : float) : float :=
  match n with
  | O => 0%float
  | S _ => (s / JS.of_count n)%float
  end.

(** The properties [meta], [real] and [perc] of a difference of blocks. *)
Definition blockDiff (curr prev : Block.t) : JS.NumObj :=
  [("meta", (Block.meta curr - Block.meta prev)%float);
   ("real", (Block.real curr - Block.real prev)%float);
   ("perc", (Block.perc curr - Block.perc prev)%float)].

(** A subsequence: elements dropped, order kept. *)
Inductive Subseq {A : Type} : list A -> list A -> Prop :=
| Subseq_nil : Subseq [] []
| Subseq_skip : forall x l1 l2, Subseq l1 l2 -> Subseq l1 (x :: l2)
| Subseq_keep : forall x l1 l2, Subseq l1 l2 -> Subseq (x :: l1) (x :: l2).

(** Every numeric property that a row carries is a finite number. *)
Definition finiteRow (r : Row.t) : bool :=
  forallb (fun k => match Row.get r k with
                    | Some v => PrimFloat.is_finite v
                    | None => true
                    end) Key.all.

(** ** Sample inputs *)

(** A row of entity X, month JAN, with one target/actual pair. *)
Definition pairRow (ano : option Z) (metaKey realKey : Key.t) (t a : float) : Row.t :=
  Row.with_num (Row.with_num (Row.bare "X" ano "jan") metaKey t) realKey a.

Definition pontualidadeRow (t a : float) : Row.t :=
  pairRow None Key.pontualidade_meta Key.pontualidade_real t a.

Definition prazoPedidoRow (t a : float) : Row.t :=
  pairRow None Key.prazo_pedido_meta Key.prazo_pedido_real t a.

(** Targets [10, NaN, 20] with actuals [5, 5, 5]. *)
Definition averagedSample : list Row.t :=
  [pontualidadeRow 10 5; pontualidadeRow nan 5; pontualidadeRow 20 5].

(** (target 100, actual 80) and (target 50, actual 60). *)
Definition summedSample : list Row.t :=
  [prazoPedidoRow 100 80; prazoPedidoRow 50 60].

(** The largest finite binary64 number. *)
Definition maxFinite : float := 0x1.fffffffffffffp+1023%float.

(** The smallest positive binary64 number. *)
Definition minPositive : float := 0x1p-1074%float.

(** Two rows whose targets and actuals are all [maxFinite]. *)
Definition overflowSample : list Row.t :=
  [prazoPedidoRow maxFinite maxFinite; prazoPedidoRow maxFinite maxFinite].

(** One row with target [minPositive] and actual [1]. *)
Definition tinyTargetSample : list Row.t :=
  [prazoPedidoRow minPositive 1].

(** A request for year 2024 whose only row is dated 2023. *)
Definition otherYearRequest : Req.t :=
  Req.mk (Some 2024%Z) (Some "X") 0.75%float
    [pairRow (Some 2023%Z) Key.prazo_pedido_meta Key.prazo_pedido_real 10 8].

(** A request for year 2024 whose only row carries no year. *)
Definition undatedRequest : Req.t :=
  Req.mk (Some 2024%Z) (Some "X") 0.75%float
    [pairRow None Key.prazo_pedido_meta Key.prazo_pedido_real 10 8].

(** Rows of two entities, for the entity filter. *)
Definition twoEntities : list Row.t :=
  [Row.bare "X" (Some 2024%Z) "JAN"; Row.bare "Y" (Some 2024%Z) "FEV";
   Row.bare "X" (Some 2024%Z) "MAR"].

Definition requestFor (obra : option string) : Req.t :=
  Req.mk (Some 2024%Z) obra 0.75%float twoEntities.

(** A narrative service that answers with text that is not JSON. *)
Definition babblingService (_ : Resumo.t) : Outcome (option string) :=
  Returned (Some "sorry").

(** A parser that rejects every text. *)
Definition rejectAll (_ : string) : option Json := None.

(** A narrative service that always throws. *)
Definition failingService (_ : Resumo.t) : Outcome (option string) :=
  Thrown "network".

(** ** String and array methods used by the rest of the server *)

Module Str.

(** [s.split(sep)] for a one-character separator. *)
Fixpoint split (sep : ascii) (s : string) : list string :=
  match s with
  | EmptyString => [EmptyString]
  | String c s' =>
      if Ascii.eqb c sep then EmptyString :: split sep s'
      else match split sep s' with
           | h :: t => String c h :: t
           | [] => [String c EmptyString]
           end
  end.

(** [l.join(sep)] *)
Fixpoint join (sep : ascii) (l : list string) : string :=
  match l with
  | [] => EmptyString
  | [x] => x
  | x :: l' => x ++ String sep (join sep l')
  end.

(** [s.endsWith(suffix)] *)
Definition endsWith (s suffix : string) : bool :=
  let n := String.length s in
  let k := String.length suffix in
  (k <=? n)%nat && (substring (n - k) k s =? suffix).

(** [l.includes(x)] on an array of strings. *)
Definition includes (l : list string) (x : string) : bool :=
  existsb (String.eqb x) l.

(** The rest of [s] after the prefix [p], compared without regard to
    the case of ASCII letters; [None] when [s] does not start with it. *)
Fixpoint stripPrefixCI (p s : string) : option string :=
  match p, s with
  | EmptyString, _ => Some s
  | String _ _, EmptyString => None
  | String a p', String b s' =>
      if Ascii.eqb (JS.upper a) (JS.upper b) then stripPrefixCI p' s' else None
  end.



(** The separator does not occur. *)
Fixpoint lacks (sep : ascii) (s : string) : bool :=
  match s with
  | EmptyString => true
  | String c s' => negb (Ascii.eqb c sep) && lacks sep s'
  end.

End Str.

(** ** CORS *)

(** [(process.env.CORS_ORIGIN || "").split(",").map((s) => s.trim()).filter(Boolean)] *)
Definition allowlistOf (CORS_ORIGIN : option string) : list string :=
  let env := JS.nullish CORS_ORIGIN "" in
  filter JS.truthy_str
    (map JS.trim (Str.split "," (if JS.truthy_str env then env else ""))).

Section Cors.

(** [new URL(origin).hostname]; [Thrown] when the constructor rejects
    the text. *)
Variable URL_hostname : string -> Outcome string.

Variable allowlist : list string.

(** [function isAllowedOrigin(origin)]; [None] is an absent header. *)
Definition isAllowedOrigin (origin : option string) : bool :=
  match origin with
  | None => true
  | Some o =>
      if negb (JS.truthy_str o) then true
      else
        match URL_hostname o with
        | Returned hostname =>
            if (hostname =? "localhost") || (hostname =? "127.0.0.1") then true
            else if Str.endsWith hostname ".vercel.app" then true
            else Str.includes allowlist o
        | Thrown _ => Str.includes allowlist o
        end
  end.

(** The [origin] callback given to [cors]: [cb(null, true)] or
    [cb(new Error("CORS: origem bloqueada"))]. *)
Definition corsOrigin (origin : option string) : Outcome bool :=
  if isAllowedOrigin origin then Returned true
  else Thrown "CORS: origem bloqueada".

End Cors.

(** ** The text of the narrative service *)

(** [.replace(/^```json\s*/i, "")] *)
Definition dropFenceStart (s : string) : string :=
  match Str.stripPrefixCI "```json" s with
  | Some rest => JS.trimStart rest
  | None => s
  end.

(** [.replace(/```$/i, "")] *)
Definition dropFenceEnd (s : string) : string :=
  if Str.endsWith s "```" then substring 0 (String.length s - 3) s else s.

Definition stripFences (s : string) : string :=
  dropFenceEnd (dropFenceStart s).

(** ** The /analyze route *)

(** [ToBoolean] on a property of the body ([None] is [undefined]). *)
Definition truthy_json (x : option Json) : bool :=
  match x with
  | None => false
  | Some JNull => false
  | Some (JBool b) => b
  | Some (JNum v) => JS.truthy v
  | Some (JStr t) => JS.truthy_str t
  | Some (JArr _) => true
  | Some (JObj _) => true
  end.

(** [const { ano, mes, metric, resumo } = req.body], for a body that is
    an object; [None] is a property that the body does not have. *)
Module Body.
Record t : Type := mk {
  ano : option Json;
  mes : option Json;
  metric : option Json;
  resumo : option Json
}.
End Body.

(** What a call of [openai.responses.create] is given: the analysis
    prompt (for the whole year when [isTodos], for one month otherwise)
    built from the body, or the repair prompt built from a text. *)
Inductive Prompt : Type :=
| AnalysisPrompt (isTodos : bool) (body : Body.t)
| RepairPrompt (raw : string).

(** What the /analyze route sends back; [Error500] carries the message
    of the error that was caught. *)
Inductive AnalyzeResponse : Type :=
| Missing400
| Data200 (data : Json)
| Error500 (thrown : string).

Section Analyze.

(** [String(v)] on a value of the body. *)
Variable String_of : Json -> string.

(** [await openai.responses.create({ ... })] *)
Variable create : Prompt -> Outcome (option string).

(** [JSON.parse], which returns a value or throws a [SyntaxError]. *)
Variable JSON_parse : string -> Outcome Json.

(** [String(mes || "").toUpperCase() === "TODOS"] *)
Definition isTodos (mes : option Json) : bool :=
  JS.toUpperCase
    (String_of (match mes with
                | Some v => if truthy_json mes then v else JStr ""
                | None => JStr ""
                end)) =? "TODOS".

(** [String(output_text || "").trim().replace(...).replace(...)] *)
Definition cleanText (output_text : option string) : string :=
  let text := JS.nullish output_text "" in
  stripFences (JS.trim (if JS.truthy_str text then text else "")).

(** The handler of [app.post("/analyze", ...)]: the response, and the
    calls made to the service, in order. *)
Definition analyze (body : Body.t) : AnalyzeResponse * list Prompt :=
  if negb (truthy_json (Body.ano body)) || negb (truthy_json (Body.resumo body))
  then (Missing400, [])
  else
    let ask := AnalysisPrompt (isTodos (Body.mes body)) body in
    match create ask with
    | Thrown err => (Error500 err, [ask])
    | Returned output_text =>
        let raw := cleanText output_text in
        match JSON_parse raw with
        | Returned data => (Data200 data, [ask])
        | Thrown _ =>
            let repair := RepairPrompt raw in
            match create repair with
            | Thrown err => (Error500 err, [ask; repair])
            | Returned fix_text =>
                match JSON_parse (cleanText fix_text) with
                | Returned data => (Data200 data, [ask; repair])
                | Thrown err => (Error500 err, [ask; repair])
                end
            end
        end
    end.

End Analyze.

(** ** Reference definitions for the further properties *)

(** The first character, if any, is not white space. *)
Definition startsClean (s : string) : Prop :=
  match s with
  | EmptyString => True
  | String c _ => JS.isWhite c = false
  end.

(** ** [extractStructured] of the earlier server (server.js) *)

(** One element of [content]: its [type], [parsed] and [text]
    properties, each possibly absent; a [text] that is present is a
    string. *)
Module Part.
Record t : Type := mk {
  type : option string;
  parsed : option Json;
  text : option string
}.
End Part.

(** One element of [resp.output]; [content] is [None] when it is not an
    array. *)
Module Item.
Record t : Type := mk { content : option (list Part.t) }.
End Item.

(** The response of the service; [None] is a nullish property. *)
Module Resp.
Record t : Type := mk {
  output : option (list Item.t);
  output_text : option string
}.
End Resp.

(** [(c) => c?.type === "output_json" && c?.parsed] *)
Definition isJsonPart (c : Part.t) : bool :=
  match Part.type c with
  | Some t => (t =? "output_json") && truthy_json (Part.parsed c)
  | None => false
  end.

(** [(c) => c?.type === "output_text" && typeof c?.text === "string"] *)
Definition isTextPart (c : Part.t) : bool :=
  match Part.type c, Part.text c with
  | Some t, Some _ => t =? "output_text"
  | _, _ => false
  end.

(** [Array.isArray(first?.content) ? first.content : []] with
    [first = resp?.output?.[0]]. *)
Definition contentOf (resp : option Resp.t) : list Part.t :=
  match resp with
  | Some r =>
      match Resp.output r with
      | Some (first :: _) => JS.nullish (Item.content first) []
      | _ => []
      end
  | None => []
  end.

Section Extract.

(** [JSON.parse], which returns a value or throws a [SyntaxError]. *)
Variable JSON_parse : string -> Outcome Json.

(** [try { return JSON.parse(raw); } catch { }] on the cleaned text;
    [None] when the [catch] is taken. *)
Definition tryParse (text : string) : option Json :=
  match JSON_parse (stripFences (JS.trim text)) with
  | Returned v => Some v
  | Thrown _ => None
  end.

(** The third step: [if (resp?.output_text) { ... }] and the final
    [throw]. *)
Definition fromOutputText (resp : option Resp.t) : Outcome Json :=
  let giveUp := Thrown "Resposta sem JSON estruturado" in
  match resp with
  | Some r =>
      match Resp.output_text r with
      | Some t =>
          if JS.truthy_str t
          then match tryParse t with
               | Some v => Returned v
               | None => giveUp
               end
          else giveUp
      | None => giveUp
      end
  | None => giveUp
  end.

(** The second step: the first text part, if its text is not empty. *)
Definition fromTextPart (resp : option Resp.t) : Outcome Json :=
  match find isTextPart (contentOf resp) with
  | Some textPart =>
      match Part.text textPart with
      | Some t =>
          if JS.truthy_str t
          then match tryParse t with
               | Some v => Returned v
               | None => fromOutputText resp
               end
          else fromOutputText resp
      | None => fromOutputText resp
      end
  | None => fromOutputText resp
  end.

(** [function extractStructured(resp)] *)
Definition extractStructured (resp : option Resp.t) : Outcome Json :=
  match find isJsonPart (contentOf resp) with
  | Some jsonPart =>
      match Part.parsed jsonPart with
      | Some v => if truthy_json (Some v) then Returned v else fromTextPart resp
      | None => fromTextPart resp
      end
  | None => fromTextPart resp
  end.

End Extract.

(** A response whose first part is a text that is not JSON, whose second
    part carries parsed data, and whose third part is a text. *)
Definition mixedResp : Resp.t :=
  Resp.mk
    (Some [Item.mk (Some [Part.mk (Some "output_text") None (Some "sorry");
                          Part.mk (Some "output_json") (Some (JBool true)) None;
                          Part.mk (Some "output_text") None (Some "null")])])
    (Some "null").

(** Stand-ins for the collaborators of the /analyze route: a service
    whose first answer is not JSON and whose repaired answer is a fenced
    [null], a parser that knows [null] only, and a body with every
    property. *)
Definition repairingService (p : Prompt) : Outcome (option string) :=
  match p with
  | AnalysisPrompt _ _ => Returned (Some "sorry")
  | RepairPrompt _ => Returned (Some " ```JSON null```")
  end.

Definition nullParser (text : string) : Outcome Json :=
  if text =? "null" then Returned JNull else Thrown "Unexpected token".

Definition textOf (v : Json) : string :=
  match v with
  | JStr t => t
  | _ => ""
  end.

Definition fullBody : Body.t :=
  Body.mk (Some (JNum 2024)) (Some (JStr "todos")) None (Some (JObj [])).

(** A host resolver that knows one origin. *)
Definition localResolver (origin : string) : Outcome string :=
  if origin =? "http://localhost:5173" then Returned "localhost"
  else Thrown "Invalid URL".

(** The month of a row is one of the twelve codes. *)
Definition canonicalMes (r : Row.t) : bool :=
  existsb (String.eqb (Row.mes r)) MONTHS_ORDER.

(** The request with another year and another target fraction. *)
Definition withAno (data : Req.t) (ano : option Z) (alvoPct : float) : Req.t :=
  Req.mk ano (Req.obra data) alvoPct (Req.rows data).

(** The number of rows of the buckets of the months [ms]. *)
Definition bucketSizes (currentYear : Z) (data : Req.t) (ms : list string) : nat :=
  fold_right (fun m acc => List.length (bucket currentYear data m) + acc) 0 ms.

(** ** Properties of the JavaScript primitives *)

Lemma truthy_false_of_zero (x : float) :
  PrimFloat.is_zero x = true -> JS.truthy x = false.
Proof.
  intros Hz. unfold JS.truthy. now rewrite Hz.
Qed.

Lemma truthy_false_of_nan (x : float) :
  PrimFloat.is_nan x = true -> JS.truthy x = false.
Proof.
  intros Hn. unfold JS.truthy. rewrite Hn. now rewrite orb_true_r.
Qed.

Lemma truthy_true_iff (x : float) :
  JS.truthy x = true <->
  PrimFloat.is_zero x = false /\ PrimFloat.is_nan x = false.
Proof.
  unfold JS.truthy. rewrite negb_true_iff, orb_false_iff. tauto.
Qed.

(** ** The Block Summarizer *)

Section Summarizer.

Variables metaKey realKey : Key.t.

(** The loop in summed mode keeps two independent sums. *)
Lemma fold_summed (rows : list Row.t) (a : Acc) :
  fold_left (summarizeStep metaKey realKey false) rows a =
  mkAcc (sumFrom (acc_meta a) (map (fun r => coerceNumber (Row.get r metaKey)) rows))
        (sumFrom (acc_real a) (map (fun r => coerceNumber (Row.get r realKey)) rows))
        (acc_n a).
Proof.
  revert a. induction rows as [|r rows IH]; intros a.
  - now destruct a.
  - simpl. rewrite IH. reflexivity.
Qed.

(** The loop in percent mode keeps two NaN-skipping sums and counts
    every row. *)
Lemma fold_percent (rows : list Row.t) (a : Acc) :
  fold_left (summarizeStep metaKey realKey true) rows a =
  mkAcc (sumSkipNaNFrom (acc_meta a) (map (fun r => readNumber (Row.get r metaKey)) rows))
        (sumSkipNaNFrom (acc_real a) (map (fun r => readNumber (Row.get r realKey)) rows))
        (acc_n a + List.length rows).
Proof.
  revert a. induction rows as [|r rows IH]; intros a.
  - destruct a as [m v n]. simpl. now rewrite Nat.add_0_r.
  - simpl. rewrite IH. simpl. unfold JS.isNaN, readNumber.
    destruct (PrimFloat.is_nan (JS.nullish (Row.get r metaKey) 0%float));
      destruct (PrimFloat.is_nan (JS.nullish (Row.get r realKey) 0%float));
      simpl; f_equal; lia.
Qed.

Lemma summarizeBlock_perc (rows : list Row.t) (isPercent : bool) :
  Block.perc (summarizeBlock rows metaKey realKey isPercent) =
  percOf (Block.meta (summarizeBlock rows metaKey realKey isPercent))
         (Block.real (summarizeBlock rows metaKey realKey isPercent)).
Proof. reflexivity. Qed.

End Summarizer.

(** C2: in percent mode the block holds the running sums, in which a NaN
    value adds nothing, divided by the number of rows processed (every
    row counts, whatever its values); with no row both means are 0; and
    targets [10, NaN, 20] with actuals [5, 5, 5] give target 10, actual 5
    and percentOfTarget 50. *)
Theorem summarizeBlock_percent_mean (rows : list Row.t) (metaKey realKey : Key.t) :
  let n := List.length rows in
  let meta :=
    meanOver n (sumSkipNaNFrom 0 (map (fun r => readNumber (Row.get r metaKey)) rows)) in
  let real :=
    meanOver n (sumSkipNaNFrom 0 (map (fun r => readNumber (Row.get r realKey)) rows)) in
  summarizeBlock rows metaKey realKey true = Block.mk meta real (percOf meta real)
  /\ summarizeBlock [] metaKey realKey true = Block.zero
  /\ summarizeBlock averagedSample Key.pontualidade_meta Key.pontualidade_real true
     = Block.mk 10 5 50.
Proof.
  cbv zeta. split; [|split].
  - unfold summarizeBlock. rewrite fold_percent. simpl acc_n. simpl acc_meta.
    simpl acc_real. destruct (List.length rows) as [|k] eqn:Hlen; reflexivity.
  - reflexivity.
  - vm_compute. reflexivity.
Qed.

(** C3: in summed mode the block holds the left-to-right sums of the
    coerced target and actual properties, an absent property or a NaN
    being coerced to 0; and (100, 80), (50, 60) give target 150, actual
    140 and percentOfTarget 93.33.. *)
Theorem summarizeBlock_summed_total (rows : list Row.t) (metaKey realKey : Key.t) :
  let meta := sumFrom 0 (map (fun r => coerceNumber (Row.get r metaKey)) rows) in
  let real := sumFrom 0 (map (fun r => coerceNumber (Row.get r realKey)) rows) in
  summarizeBlock rows metaKey realKey false = Block.mk meta real (percOf meta real)
  /\ coerceNumber None = 0%float
  /\ coerceNumber (Some nan) = 0%float
  /\ (let b := summarizeBlock summedSample Key.prazo_pedido_meta Key.prazo_pedido_real false in
      Block.meta b = 150%float /\ Block.real b = 140%float
      /\ Block.perc b = (140 / 150 * 100)%float
      /\ (9333 / 100 <? Block.perc b)%float = true
      /\ (Block.perc b <? 9334 / 100)%float = true).
Proof.
  cbv zeta. split; [|split; [|split]].
  - unfold summarizeBlock. rewrite fold_summed. reflexivity.
  - reflexivity.
  - reflexivity.
  - vm_compute. repeat split.
Qed.

(** C7 (as amended): the percentage of a block is 0 when its target is
    zero, and then neither NaN nor infinite; it is also 0 when the target
    is NaN; for any other target it is [(actual / target) * 100]. *)
Theorem summarizeBlock_perc_guard (rows : list Row.t) (metaKey realKey : Key.t)
    (isPercent : bool) :
  let b := summarizeBlock rows metaKey realKey isPercent in
  (PrimFloat.is_zero (Block.meta b) = true ->
     Block.perc b = 0%float
     /\ PrimFloat.is_nan (Block.perc b) = false
     /\ PrimFloat.is_infinity (Block.perc b) = false)
  /\ (PrimFloat.is_nan (Block.meta b) = true -> Block.perc b = 0%float)
  /\ (PrimFloat.is_zero (Block.meta b) = false ->
      PrimFloat.is_nan (Block.meta b) = false ->
      Block.perc b = (Block.real b / Block.meta b * 100)%float).
Proof.
  cbv zeta. rewrite summarizeBlock_perc.
  set (b := summarizeBlock rows metaKey realKey isPercent).
  unfold percOf. split; [|split].
  - intros Hz. rewrite (truthy_false_of_zero _ Hz). repeat split.
  - intros Hn. now rewrite (truthy_false_of_nan _ Hn).
  - intros Hz Hn.
    assert (Ht : JS.truthy (Block.meta b) = true) by now apply truthy_true_iff.
    now rewrite Ht.
Qed.

Lemma summarizeBlock_perc_guard_witness :
  Block.perc (summarizeBlock [] Key.prazo_pedido_meta Key.prazo_pedido_real false) = 0%float
  /\ Block.perc (summarizeBlock summedSample Key.prazo_pedido_meta Key.prazo_pedido_real false)
     = (140 / 150 * 100)%float.
Proof.
  split.
  - apply (proj1 (summarizeBlock_perc_guard []
                    Key.prazo_pedido_meta Key.prazo_pedido_real false)).
    vm_compute. reflexivity.
  - apply (proj2 (proj2 (summarizeBlock_perc_guard summedSample
                           Key.prazo_pedido_meta Key.prazo_pedido_real false)));
      vm_compute; reflexivity.
Defined.

(** C7 (as stated) fails: with finite inputs only, two rows whose targets
    and actuals are the largest finite number give a NaN percentage, and
    a row with the smallest positive target and actual 1 gives an
    infinite one. *)
Lemma summarizeBlock_perc_not_finite :
  forallb finiteRow overflowSample = true
  /\ PrimFloat.is_nan
       (Block.perc (summarizeBlock overflowSample
                      Key.prazo_pedido_meta Key.prazo_pedido_real false)) = true
  /\ forallb finiteRow tinyTargetSample = true
  /\ PrimFloat.is_infinity
       (Block.perc (summarizeBlock tinyTargetSample
                      Key.prazo_pedido_meta Key.prazo_pedido_real false)) = true.
Proof. vm_compute. repeat split. Qed.

(** ** List facts used by the route *)

Lemma filter_all {A : Type} (l : list A) :
  filter (fun _ => true) l = l.
Proof.
  induction l as [|x l IH]; simpl; [reflexivity | now rewrite IH].
Qed.

Lemma filter_Subseq {A : Type} (p : A -> bool) (l : list A) :
  Subseq (filter p l) l.
Proof.
  induction l as [|x l IH]; simpl.
  - constructor.
  - destruct (p x); now constructor.
Qed.

Lemma mapi_from_length {A B : Type} (f : A -> nat -> B) (l : list A) (k : nat) :
  List.length (JS.mapi_from f k l) = List.length l.
Proof.
  revert k. induction l as [|x l IH]; intros k; simpl; [reflexivity | now rewrite IH].
Qed.

Lemma mapi_from_nth {A B : Type} (f : A -> nat -> B) (l : list A) (k i : nat) :
  nth_error (JS.mapi_from f k l) i = option_map (fun x => f x (k + i)) (nth_error l i).
Proof.
  revert k i. induction l as [|x l IH]; intros k i.
  - now destruct i.
  - destruct i as [|i]; simpl.
    + now rewrite Nat.add_0_r.
    + rewrite IH. now rewrite Nat.add_succ_comm.
Qed.

Lemma mapi_from_proj {A B C : Type} (f : A -> nat -> B) (g : B -> C) (h : A -> C) :
  (forall x k, g (f x k) = h x) ->
  forall l k, map g (JS.mapi_from f k l) = map h l.
Proof.
  intros Hgf. induction l as [|x l IH]; intros k; simpl.
  - reflexivity.
  - now rewrite Hgf, IH.
Qed.

(** ** The Delta Calculator *)

Lemma monthDelta_blockDiff (curr prev : Block.t) :
  monthDelta (Some curr) (Some prev) = blockDiff curr prev.
Proof. reflexivity. Qed.

Lemma withDelta_first (ms : list Month.t) (row : Month.t) :
  MonthD.delta (withDelta ms row 0) = Delta.empty.
Proof. reflexivity. Qed.

Lemma withDelta_next (ms : list Month.t) (row prev : Month.t) (i : nat) :
  0 < i ->
  nth_error ms (i - 1) = Some prev ->
  MonthD.delta (withDelta ms row i) =
  Delta.mk (blockDiff (Month.prazo_pedido row) (Month.prazo_pedido prev))
           (blockDiff (Month.prazo_entrega row) (Month.prazo_entrega prev))
           (blockDiff (Month.pontualidade row) (Month.pontualidade prev))
           (blockDiff (Month.negociacao row) (Month.negociacao prev)).
Proof.
  intros Hi Hprev. unfold withDelta.
  apply Nat.ltb_lt in Hi. rewrite Hi, Hprev.
  now rewrite !monthDelta_blockDiff.
Qed.

(** ** The Month Series Builder *)

Section RouteFacts.

Variable currentYear : Z.

Lemma months_length (data : Req.t) :
  List.length (months currentYear data) = 12.
Proof. unfold months. now rewrite length_map. Qed.

Lemma months_nth (data : Req.t) (i : nat) :
  i < 12 -> exists row, nth_error (months currentYear data) i = Some row.
Proof.
  intros Hi. destruct (nth_error (months currentYear data) i) as [row|] eqn:Hn.
  - now exists row.
  - apply nth_error_None in Hn. rewrite months_length in Hn. lia.
Qed.

Lemma monthsWithDelta_nth (data : Req.t) (i : nat) (row : Month.t) :
  nth_error (months currentYear data) i = Some row ->
  nth_error (monthsWithDelta currentYear data) i =
  Some (withDelta (months currentYear data) row i).
Proof.
  intros Hrow. unfold monthsWithDelta, JS.mapi.
  rewrite mapi_from_nth, Hrow. reflexivity.
Qed.

Lemma months_mes (data : Req.t) :
  map Month.mes (months currentYear data) = MONTHS_ORDER.
Proof. unfold months. rewrite map_map. reflexivity. Qed.

Lemma monthsWithDelta_length (data : Req.t) :
  List.length (monthsWithDelta currentYear data) = 12.
Proof.
  unfold monthsWithDelta, JS.mapi. rewrite mapi_from_length. apply months_length.
Qed.

Lemma monthsWithDelta_mes (data : Req.t) :
  map MonthD.mes (monthsWithDelta currentYear data) = MONTHS_ORDER.
Proof.
  unfold monthsWithDelta, JS.mapi.
  rewrite (mapi_from_proj _ MonthD.mes Month.mes); [apply months_mes | reflexivity].
Qed.

End RouteFacts.

(** C4: the month series has exactly 12 records, for the months JAN to
    DEZ in calendar order (and so has the series with deltas), and the
    record of a month whose bucket is empty holds the zero block in all
    four categories. *)
Theorem months_twelve_in_order (currentYear : Z) (data : Req.t) :
  List.length (months currentYear data) = 12
  /\ map Month.mes (months currentYear data) = MONTHS_ORDER
  /\ List.length (monthsWithDelta currentYear data) = 12
  /\ map MonthD.mes (monthsWithDelta currentYear data) = MONTHS_ORDER
  /\ (forall (i : nat) (m : string),
        nth_error MONTHS_ORDER i = Some m ->
        bucket currentYear data m = [] ->
        nth_error (months currentYear data) i =
        Some (Month.mk m Block.zero Block.zero Block.zero Block.zero)).
Proof.
  split; [apply months_length|]. split; [apply months_mes|].
  split; [apply monthsWithDelta_length|]. split; [apply monthsWithDelta_mes|].
  intros i m Hm Hempty. unfold months.
  rewrite nth_error_map, Hm. simpl. unfold monthOf. rewrite Hempty. reflexivity.
Qed.

Lemma months_twelve_in_order_witness :
  nth_error (months 2026 (Req.mk (Some 2024%Z) None 0.75%float [])) 0 =
  Some (Month.mk "JAN" Block.zero Block.zero Block.zero Block.zero).
Proof.
  apply (proj2 (proj2 (proj2 (proj2
           (months_twelve_in_order 2026 (Req.mk (Some 2024%Z) None 0.75%float [])))))).
  - reflexivity.
  - reflexivity.
Defined.

(** C5: in the series with deltas the record of index 0 has an empty
    delta in all four categories, and for every index [0 < i < 12] and
    each category the delta holds exactly [meta], [real] and [perc], each
    the difference between the month's block and the previous month's. *)
Theorem monthsWithDelta_delta (currentYear : Z) (data : Req.t) :
  (exists first,
      nth_error (monthsWithDelta currentYear data) 0 = Some first
      /\ MonthD.delta first = Delta.empty)
  /\ (forall i : nat,
        0 < i < 12 ->
        exists curr prev d,
          nth_error (months currentYear data) i = Some curr
          /\ nth_error (months currentYear data) (i - 1) = Some prev
          /\ nth_error (monthsWithDelta currentYear data) i = Some d
          /\ MonthD.delta d =
             Delta.mk
               (blockDiff (Month.prazo_pedido curr) (Month.prazo_pedido prev))
               (blockDiff (Month.prazo_entrega curr) (Month.prazo_entrega prev))
               (blockDiff (Month.pontualidade curr) (Month.pontualidade prev))
               (blockDiff (Month.negociacao curr) (Month.negociacao prev))).
Proof.
  split.
  - destruct (months_nth currentYear data 0) as [row Hrow]; [lia|].
    exists (withDelta (months currentYear data) row 0). split.
    + now apply monthsWithDelta_nth.
    + apply withDelta_first.
  - intros i [Hpos Hlt].
    destruct (months_nth currentYear data i) as [curr Hcurr]; [lia|].
    destruct (months_nth currentYear data (i - 1)) as [prev Hprev]; [lia|].
    exists curr, prev, (withDelta (months currentYear data) curr i).
    repeat split; try assumption.
    + now apply monthsWithDelta_nth.
    + now apply withDelta_next.
Qed.

Lemma monthsWithDelta_delta_witness :
  exists curr prev d,
    nth_error (months 2026 undatedRequest) 1 = Some curr
    /\ nth_error (months 2026 undatedRequest) (1 - 1) = Some prev
    /\ nth_error (monthsWithDelta 2026 undatedRequest) 1 = Some d
    /\ MonthD.delta d =
       Delta.mk
         (blockDiff (Month.prazo_pedido curr) (Month.prazo_pedido prev))
         (blockDiff (Month.prazo_entrega curr) (Month.prazo_entrega prev))
         (blockDiff (Month.pontualidade curr) (Month.pontualidade prev))
         (blockDiff (Month.negociacao curr) (Month.negociacao prev)).
Proof.
  apply (proj2 (monthsWithDelta_delta 2026 undatedRequest) 1). lia.
Defined.

(** ** The Row Filter *)

Lemma obraSel_specific (label : string) :
  label <> "" -> label <> "Todas" -> obraSel (Some label) = Some label.
Proof.
  intros Hne Hnt. unfold obraSel, JS.truthy_str.
  apply String.eqb_neq in Hne. apply String.eqb_neq in Hnt.
  now rewrite Hne, Hnt.
Qed.

Lemma obraTest_specific (label : string) (r : Row.t) :
  label <> "" -> obraTest (Some label) r = (Row.obra r =? label).
Proof.
  intros Hne. unfold obraTest, JS.truthy_str.
  apply String.eqb_neq in Hne. now rewrite Hne.
Qed.

(** C6: with the sentinel "Todas" the filter returns the normalized rows
    unchanged; with a specific label (not empty, not the sentinel) it
    returns exactly the rows whose entity is that label, in input order. *)
Theorem filtered_by_entity (currentYear : Z) (data : Req.t) :
  (Req.obra data = Some "Todas" ->
     filtered currentYear data = norm currentYear data)
  /\ (forall label : string,
        Req.obra data = Some label ->
        label <> "" ->
        label <> "Todas" ->
        filtered currentYear data =
          filter (fun r => Row.obra r =? label) (norm currentYear data)
        /\ (forall r : Row.t,
              In r (filtered currentYear data) <->
              In r (norm currentYear data) /\ Row.obra r = label)
        /\ Subseq (filtered currentYear data) (norm currentYear data)).
Proof.
  split.
  - intros Hall. unfold filtered. rewrite Hall. simpl. apply filter_all.
  - intros label Hsel Hne Hnt.
    assert (Heq : filtered currentYear data =
                  filter (fun r => Row.obra r =? label) (norm currentYear data)).
    { unfold filtered. rewrite Hsel, (obraSel_specific label Hne Hnt).
      apply filter_ext. intros r. now apply obraTest_specific. }
    split; [exact Heq|]. split.
    + intros r. rewrite Heq, filter_In, String.eqb_eq. reflexivity.
    + rewrite Heq. apply filter_Subseq.
Qed.

Lemma filtered_by_entity_witness :
  filtered 2026 (requestFor (Some "Todas")) = norm 2026 (requestFor (Some "Todas"))
  /\ filtered 2026 (requestFor (Some "X")) =
     filter (fun r => Row.obra r =? "X") (norm 2026 (requestFor (Some "X"))).
Proof.
  split.
  - apply (proj1 (filtered_by_entity 2026 (requestFor (Some "Todas")))). reflexivity.
  - apply (proj2 (filtered_by_entity 2026 (requestFor (Some "X"))) "X").
    + reflexivity.
    + discriminate.
    + discriminate.
Defined.

(** C10: an absent or empty entity label is handled as "Todas": no row
    is filtered out, and the whole response is the one of the same
    request with the label "Todas". *)
Theorem obra_absent_as_Todas (currentYear : Z)
    (openai_create : Resumo.t -> Outcome (option string))
    (stripFences : string -> string) (JSON_parse : string -> option Json)
    (data : Req.t) :
  Req.obra data = None \/ Req.obra data = Some "" ->
  let todas := Req.mk (Req.ano data) (Some "Todas") (Req.alvoPct data) (Req.rows data) in
  filtered currentYear data = norm currentYear data
  /\ filtered currentYear data = filtered currentYear todas
  /\ ytd currentYear data = ytd currentYear todas
  /\ monthsWithDelta currentYear data = monthsWithDelta currentYear todas
  /\ analyzeObras currentYear openai_create stripFences JSON_parse (Success data) =
     analyzeObras currentYear openai_create stripFences JSON_parse (Success todas).
Proof.
  intros Hobra todas.
  assert (Hsel : obraSel (Req.obra data) = None)
    by (destruct Hobra as [-> | ->]; reflexivity).
  assert (Hnorm : norm currentYear todas = norm currentYear data) by reflexivity.
  assert (Hf : filtered currentYear data = filtered currentYear todas).
  { unfold filtered. rewrite Hnorm, Hsel. reflexivity. }
  assert (Hy : ytd currentYear data = ytd currentYear todas).
  { unfold ytd. now rewrite Hf. }
  assert (Hm : months currentYear data = months currentYear todas).
  { unfold months, bucket. now rewrite Hf. }
  assert (Hd : monthsWithDelta currentYear data = monthsWithDelta currentYear todas).
  { unfold monthsWithDelta. now rewrite Hm. }
  split; [|split; [exact Hf|split; [exact Hy|split; [exact Hd|]]]].
  - unfold filtered. rewrite Hsel. apply filter_all.
  - unfold analyzeObras, resumoIA. rewrite Hy, Hd, Hsel. reflexivity.
Qed.

Lemma obra_absent_as_Todas_witness :
  filtered 2026 (requestFor (Some "")) = norm 2026 (requestFor (Some ""))
  /\ filtered 2026 (requestFor None) = norm 2026 (requestFor None).
Proof.
  split.
  - apply (obra_absent_as_Todas 2026 failingService (fun s => s) (fun _ => None)
             (requestFor (Some ""))).
    right. reflexivity.
  - apply (obra_absent_as_Todas 2026 failingService (fun s => s) (fun _ => None)
             (requestFor None)).
    left. reflexivity.
Defined.

(** C9: a row without a year takes the year of the request when there is
    one, then passes the year test of the month buckets and is in the
    bucket of its normalized month as soon as it passes the entity
    filter; without a request year it takes the current year. *)
Theorem normRow_absent_year (currentYear : Z) (data : Req.t) (r : Row.t) :
  In r (Req.rows data) ->
  Row.ano r = None ->
  let r' := normRow currentYear (Req.ano data) r in
  In r' (norm currentYear data)
  /\ (forall y : Z,
        Req.ano data = Some y ->
        Row.ano r' = Some y
        /\ anoTest (Req.ano data) r' = true
        /\ (obraTest (obraSel (Req.obra data)) r' = true ->
            In r' (bucket currentYear data (normalizeMes (Row.mes r)))))
  /\ (Req.ano data = None -> Row.ano r' = Some currentYear).
Proof.
  intros Hin Hano r'.
  assert (Hnorm : In r' (norm currentYear data)) by (unfold norm; now apply in_map).
  split; [exact Hnorm|]. split.
  - intros y Hy.
    assert (Hr' : Row.ano r' = Some y).
    { unfold r', normRow. simpl. now rewrite Hano, Hy. }
    assert (Htest : anoTest (Req.ano data) r' = true).
    { unfold anoTest. rewrite Hr', Hy. simpl. rewrite Z.eqb_refl. apply orb_true_r. }
    split; [exact Hr'|]. split; [exact Htest|].
    intros Hobra. unfold bucket. apply filter_In. split.
    + unfold filtered. apply filter_In. now split.
    + rewrite Htest. unfold r', normRow. simpl. now rewrite String.eqb_refl.
  - intros Hnone. unfold r', normRow. simpl. now rewrite Hano, Hnone.
Qed.

Lemma normRow_absent_year_witness :
  let r := pairRow None Key.prazo_pedido_meta Key.prazo_pedido_real 10 8 in
  let r' := normRow 2026 (Some 2024%Z) r in
  In r' (norm 2026 undatedRequest)
  /\ (forall y : Z,
        Some 2024%Z = Some y ->
        Row.ano r' = Some y
        /\ anoTest (Some 2024%Z) r' = true
        /\ (obraTest (obraSel (Some "X")) r' = true ->
            In r' (bucket 2026 undatedRequest (normalizeMes "jan"))))
  /\ (Some 2024%Z = None -> Row.ano r' = Some 2026%Z).
Proof.
  apply (normRow_absent_year 2026 undatedRequest
           (pairRow None Key.prazo_pedido_meta Key.prazo_pedido_real 10 8)).
  - simpl. left. reflexivity.
  - reflexivity.
Defined.

(** ** The response of the route *)

(** C8: when the narrative service fails on a validated request, the
    route still answers with [ok: true], the YTD blocks, the 12 month
    records with their deltas, and an empty object as [analise]. *)
Theorem analyzeObras_narrative_failure (currentYear : Z)
    (openai_create : Resumo.t -> Outcome (option string))
    (stripFences : string -> string) (JSON_parse : string -> option Json)
    (data : Req.t) :
  narrativeFails openai_create stripFences JSON_parse (resumoIA currentYear data) ->
  analyzeObras currentYear openai_create stripFences JSON_parse (Success data) =
    Json200 true (Resumo.obra (resumoIA currentYear data)) (Req.ano data)
      (ytd currentYear data) (monthsWithDelta currentYear data) (JObj [])
  /\ List.length (monthsWithDelta currentYear data) = 12
  /\ map MonthD.mes (monthsWithDelta currentYear data) = MONTHS_ORDER.
Proof.
  intros Hfail. split.
  - unfold analyzeObras, analise. unfold narrativeFails in Hfail.
    destruct (openai_create (resumoIA currentYear data)) as [output_text|message].
    + now rewrite Hfail.
    + reflexivity.
  - split; [apply monthsWithDelta_length | apply monthsWithDelta_mes].
Qed.

Lemma analyzeObras_narrative_failure_witness :
  analyzeObras 2026 failingService (fun s => s) rejectAll (Success undatedRequest) =
    Json200 true "X" (Some 2024%Z)
      (ytd 2026 undatedRequest) (monthsWithDelta 2026 undatedRequest) (JObj [])
  /\ analyzeObras 2026 babblingService (fun s => s) rejectAll (Success undatedRequest) =
    Json200 true "X" (Some 2024%Z)
      (ytd 2026 undatedRequest) (monthsWithDelta 2026 undatedRequest) (JObj []).
Proof.
  split.
  - apply (analyzeObras_narrative_failure 2026 failingService (fun s => s) rejectAll
             undatedRequest).
    exact I.
  - apply (analyzeObras_narrative_failure 2026 babblingService (fun s => s) rejectAll
             undatedRequest).
    reflexivity.
Defined.

(** ** The Year-To-Date Aggregator *)

(** The YTD blocks are the summaries of all the rows that pass the entity
    filter; the year of the request takes no part. *)
Lemma ytd_over_filtered (currentYear : Z) (data : Req.t) :
  ytd currentYear data =
  Ytd.mk
    (summarizeBlock (filtered currentYear data)
       Key.prazo_pedido_meta Key.prazo_pedido_real false)
    (summarizeBlock (filtered currentYear data)
       Key.prazo_entrega_meta Key.prazo_entrega_real false)
    (summarizeBlock (filtered currentYear data)
       Key.pontualidade_meta Key.pontualidade_real true)
    (summarizeBlock (filtered currentYear data)
       Key.negociacao_meta Key.negociacao_real true).
Proof. reflexivity. Qed.

(** C1 fails on the code: for a request of year 2024 whose only row is
    dated 2023, no filtered row passes the year test and every month
    block is zero, yet the YTD block of prazo_pedido counts the row. *)
Lemma ytd_counts_other_years :
  Req.ano otherYearRequest = Some 2024%Z
  /\ filter (anoTest (Req.ano otherYearRequest)) (filtered 2026 otherYearRequest) = []
  /\ map Month.prazo_pedido (months 2026 otherYearRequest) = repeat Block.zero 12
  /\ Ytd.prazo_pedido (ytd 2026 otherYearRequest) = Block.mk 10 8 80.
Proof. vm_compute. repeat split. Qed.

(** ** Further properties: [money] and [normalizeMes] *)

(** [money] never returns NaN, and applying it twice changes nothing. *)
Theorem money_never_nan (v : float) :
  PrimFloat.is_nan (money v) = false /\ money (money v) = money v.
Proof.
  unfold money. destruct (JS.truthy v) eqn:Hv.
  - rewrite Hv. split; [|reflexivity]. now apply truthy_true_iff in Hv.
  - split; reflexivity.
Qed.























(** ** Further properties: the Block Summarizer *)

(** Two rows agree on the two properties that a summary reads. *)
Lemma summarizeStep_agree (metaKey realKey : Key.t) (isPercent : bool)
    (a : Acc) (r r' : Row.t) :
  Row.get r metaKey = Row.get r' metaKey ->
  Row.get r realKey = Row.get r' realKey ->
  summarizeStep metaKey realKey isPercent a r =
  summarizeStep metaKey realKey isPercent a r'.
Proof.
  intros Hm Hr. unfold summarizeStep. now rewrite Hm, Hr.
Qed.

Lemma summarizeBlock_agree (metaKey realKey : Key.t) (isPercent : bool)
    (rows rows' : list Row.t) :
  Forall2 (fun r r' => Row.get r metaKey = Row.get r' metaKey
                       /\ Row.get r realKey = Row.get r' realKey) rows rows' ->
  summarizeBlock rows metaKey realKey isPercent =
  summarizeBlock rows' metaKey realKey isPercent.
Proof.
  intros Hagree. unfold summarizeBlock.
  assert (Hfold : forall a,
             fold_left (summarizeStep metaKey realKey isPercent) rows a =
             fold_left (summarizeStep metaKey realKey isPercent) rows' a).
  { induction Hagree as [|r r' rows rows' [Hm Hr] _ IH]; intros a; simpl.
    - reflexivity.
    - rewrite (summarizeStep_agree _ _ _ a r r' Hm Hr). apply IH. }
  now rewrite Hfold.
Qed.

Lemma summarizeBlock_map (metaKey realKey : Key.t) (isPercent : bool)
    (f : Row.t -> Row.t) (rows : list Row.t) :
  (forall r k, Row.get (f r) k = Row.get r k) ->
  summarizeBlock (map f rows) metaKey realKey isPercent =
  summarizeBlock rows metaKey realKey isPercent.
Proof.
  intros Hf. apply summarizeBlock_agree.
  induction rows as [|r rows IH]; simpl; constructor; auto.
Qed.

(** A summary reads nothing of a row but the two properties it is asked
    for: row lists that agree on them, row by row, have the same block,
    whatever their entities, years, months and other metrics. *)
Theorem summarizeBlock_reads_two_keys (metaKey realKey : Key.t) (isPercent : bool)
    (rows rows' : list Row.t) :
  List.length rows = List.length rows' ->
  (forall i r r', nth_error rows i = Some r -> nth_error rows' i = Some r' ->
                  Row.get r metaKey = Row.get r' metaKey
                  /\ Row.get r realKey = Row.get r' realKey) ->
  summarizeBlock rows metaKey realKey isPercent =
  summarizeBlock rows' metaKey realKey isPercent.
Proof.
  intros Hlen Hnth. apply summarizeBlock_agree.
  revert rows' Hlen Hnth. induction rows as [|r rows IH]; intros [|r' rows'] Hlen Hnth;
    try discriminate; constructor.
  - exact (Hnth 0 r r' eq_refl eq_refl).
  - apply IH; [now injection Hlen|].
    intros i x x' Hx Hx'. exact (Hnth (S i) x x' Hx Hx').
Qed.

Lemma summarizeBlock_reads_two_keys_witness :
  summarizeBlock [pairRow None Key.prazo_pedido_meta Key.prazo_pedido_real 10 8]
    Key.prazo_pedido_meta Key.prazo_pedido_real false =
  summarizeBlock [pairRow (Some 2023%Z) Key.prazo_pedido_meta Key.prazo_pedido_real 10 8]
    Key.prazo_pedido_meta Key.prazo_pedido_real false.
Proof.
  apply summarizeBlock_reads_two_keys.
  - reflexivity.
  - intros [|[|i]] r r' Hr Hr'; try discriminate.
    injection Hr as <-. injection Hr' as <-. split; reflexivity.
Defined.

(** In summed mode the totals accumulate from left to right: a row added
    at the end adds its two coerced values to the totals of the rows
    before it. *)
Theorem summarizeBlock_summed_snoc (metaKey realKey : Key.t)
    (rows : list Row.t) (r : Row.t) :
  let before := summarizeBlock rows metaKey realKey false in
  let after := summarizeBlock (rows ++ [r]) metaKey realKey false in
  Block.meta after = (Block.meta before + coerceNumber (Row.get r metaKey))%float
  /\ Block.real after = (Block.real before + coerceNumber (Row.get r realKey))%float.
Proof.
  cbv zeta. unfold summarizeBlock. rewrite fold_left_app. simpl fold_left.
  rewrite !fold_summed. split; reflexivity.
Qed.

Lemma sumFrom_zeros (vs : list float) :
  Forall (fun v => v = 0%float) vs -> sumFrom 0 vs = 0%float.
Proof.
  unfold sumFrom. induction 1 as [|v vs Hv _ IH]; simpl; [reflexivity|].
  subst v. exact IH.
Qed.

(** In summed mode, rows whose two properties are all absent, NaN or
    zero give the zero block. *)
Theorem summarizeBlock_summed_no_data (metaKey realKey : Key.t) (rows : list Row.t) :
  (forall r, In r rows ->
     coerceNumber (Row.get r metaKey) = 0%float
     /\ coerceNumber (Row.get r realKey) = 0%float) ->
  summarizeBlock rows metaKey realKey false = Block.zero.
Proof.
  intros Hzero. unfold summarizeBlock. rewrite fold_summed. simpl.
  rewrite !sumFrom_zeros.
  - reflexivity.
  - apply Forall_map, Forall_forall. intros r Hr. now apply Hzero.
  - apply Forall_map, Forall_forall. intros r Hr. now apply Hzero.
Qed.

Lemma summarizeBlock_summed_no_data_witness :
  summarizeBlock twoEntities Key.prazo_pedido_meta Key.prazo_pedido_real false = Block.zero.
Proof.
  apply summarizeBlock_summed_no_data.
  intros r [<- | [<- | [<- | []]]]; split; reflexivity.
Defined.

(** ** Further properties: rows, buckets and YTD *)

Lemma filter_map_comm {A B : Type} (p : B -> bool) (f : A -> B) (l : list A) :
  filter p (map f l) = map f (filter (fun x => p (f x)) l).
Proof.
  induction l as [|x l IH]; simpl; [reflexivity|].
  destruct (p (f x)); simpl; now rewrite IH.
Qed.

Lemma filter_length_or {A : Type} (p q : A -> bool) (l : list A) :
  (forall x, p x && q x = false) ->
  List.length (filter (fun x => p x || q x) l) =
  List.length (filter p l) + List.length (filter q l).
Proof.
  intros Hex. induction l as [|x l IH]; simpl; [reflexivity|].
  specialize (Hex x). destruct (p x), (q x); simpl in *; try discriminate; lia.
Qed.

Lemma MONTHS_ORDER_NoDup : NoDup MONTHS_ORDER.
Proof.
  unfold MONTHS_ORDER.
  repeat (constructor; [simpl; intuition discriminate|]). constructor.
Qed.

Section BucketFacts.

Variable currentYear : Z.

Lemma normRow_get (ano : option Z) (r : Row.t) (k : Key.t) :
  Row.get (normRow currentYear ano r) k = Row.get r k.
Proof. now destruct k. Qed.

Lemma filtered_as_map (data : Req.t) :
  filtered currentYear data =
  map (normRow currentYear (Req.ano data))
      (filter (obraTest (obraSel (Req.obra data))) (Req.rows data)).
Proof.
  unfold filtered, norm. rewrite filter_map_comm. f_equal.
Qed.

Lemma anoTest_normRow (ano : option Z) (r : Row.t) :
  anoTest ano (normRow currentYear ano r) = true <->
  match ano with
  | Some y => y = 0%Z \/ Row.ano r = None \/ Row.ano r = Some y
  | None => True
  end.
Proof.
  unfold anoTest, normRow. simpl. destruct ano as [y|]; simpl; [|tauto].
  rewrite orb_true_iff, negb_true_iff, negb_false_iff, !Z.eqb_eq.
  destruct (Row.ano r) as [y0|]; simpl.
  - split.
    + intros [H | H]; [now left | right; right; now subst].
    + intros [H | [H | H]]; [now left | discriminate | right; congruence].
  - split; [intros _; right; now left | intros _; now right].
Qed.

Lemma bucketSizes_count (data : Req.t) (ms : list string) :
  NoDup ms ->
  bucketSizes currentYear data ms =
  List.length
    (filter (fun r => existsb (String.eqb (Row.mes r)) ms && anoTest (Req.ano data) r)
            (filtered currentYear data)).
Proof.
  induction 1 as [|m ms Hm Hnd IH]; simpl.
  - induction (filtered currentYear data) as [|r l IHl]; simpl; auto.
  - rewrite IH. unfold bucket. rewrite <- filter_length_or.
    + f_equal. apply filter_ext. intros r.
      destruct (Row.mes r =? m), (existsb (String.eqb (Row.mes r)) ms),
        (anoTest (Req.ano data) r); reflexivity.
    + intros r. destruct (Row.mes r =? m) eqn:Hrm; simpl; [|reflexivity].
      apply String.eqb_eq in Hrm. subst m.
      destruct (existsb (String.eqb (Row.mes r)) ms) eqn:Hex; simpl; [|now rewrite andb_false_r].
      exfalso. apply Hm. apply existsb_exists in Hex as [m' [Hin Heq]].
      apply String.eqb_eq in Heq. now subst m'.
Qed.

End BucketFacts.

(** The YTD blocks depend on the rows and on the entity label only: the
    year of the request, its target fraction and the current year take
    no part in them. *)
Theorem ytd_ignores_year (currentYear currentYear' : Z) (data : Req.t)
    (ano' : option Z) (alvoPct' : float) :
  ytd currentYear data = ytd currentYear' (withAno data ano' alvoPct').
Proof.
  unfold ytd. rewrite !filtered_as_map. simpl.
  rewrite !summarizeBlock_map; try reflexivity; intros r k; apply normRow_get.
Qed.

(** The rows of a month bucket are exactly the normalized forms of the
    rows of the request that pass the entity filter, whose month
    normalizes to the bucket's code and, when the request has a year
    other than 0, whose own year is absent or equal to it. *)
Theorem bucket_rows (currentYear : Z) (data : Req.t) (m : string) (r' : Row.t) :
  In r' (bucket currentYear data m) <->
  exists r,
    In r (Req.rows data)
    /\ r' = normRow currentYear (Req.ano data) r
    /\ obraTest (obraSel (Req.obra data)) r = true
    /\ normalizeMes (Row.mes r) = m
    /\ match Req.ano data with
       | Some y => y = 0%Z \/ Row.ano r = None \/ Row.ano r = Some y
       | None => True
       end.
Proof.
  unfold bucket. rewrite filter_In, filtered_as_map, in_map_iff. split.
  - intros [[r [<- Hr]] Htest]. apply filter_In in Hr as [Hin Hobra].
    apply andb_true_iff in Htest as [Hmes Hano].
    exists r. repeat split; try assumption.
    + now apply String.eqb_eq in Hmes.
    + now apply anoTest_normRow in Hano.
  - intros [r [Hin [-> [Hobra [Hmes Hano]]]]]. split.
    + exists r. split; [reflexivity|]. apply filter_In. now split.
    + apply andb_true_iff. split.
      * apply String.eqb_eq. exact Hmes.
      * now apply anoTest_normRow.
Qed.

(** No row is counted in two months, and the twelve buckets together hold
    exactly the filtered rows that have one of the twelve month codes and
    pass the year test: never more rows than the request has. *)
Theorem bucket_partition (currentYear : Z) (data : Req.t) :
  bucketSizes currentYear data MONTHS_ORDER =
    List.length (filter (fun r => canonicalMes r && anoTest (Req.ano data) r)
                        (filtered currentYear data))
  /\ bucketSizes currentYear data MONTHS_ORDER <= List.length (Req.rows data)
  /\ (forall m1 m2 r,
        In r (bucket currentYear data m1) ->
        In r (bucket currentYear data m2) ->
        m1 = m2).
Proof.
  assert (Hcount := bucketSizes_count currentYear data MONTHS_ORDER MONTHS_ORDER_NoDup).
  split; [exact Hcount|]. split.
  - rewrite Hcount. etransitivity; [apply filter_length_le|].
    unfold filtered. etransitivity; [apply filter_length_le|].
    unfold norm. now rewrite length_map.
  - intros m1 m2 r H1 H2. unfold bucket in H1, H2.
    apply filter_In in H1 as [_ H1]. apply filter_In in H2 as [_ H2].
    apply andb_true_iff in H1 as [H1 _]. apply andb_true_iff in H2 as [H2 _].
    apply String.eqb_eq in H1, H2. congruence.
Qed.

Lemma bucket_partition_witness : "JAN" = normalizeMes " jan ".
Proof.
  apply (proj2 (proj2 (bucket_partition 2026 undatedRequest))
           "JAN" (normalizeMes " jan ")
           (normRow 2026 (Some 2024%Z)
              (pairRow None Key.prazo_pedido_meta Key.prazo_pedido_real 10 8)));
    vm_compute; left; reflexivity.
Defined.

(** A row dated another year than the request's (non-zero) year is in no
    month bucket, yet it is among the rows that YTD summarizes as soon as
    it passes the entity filter. *)
Theorem other_year_row_in_ytd_only (currentYear : Z) (data : Req.t) (r : Row.t)
    (y y' : Z) :
  In r (Req.rows data) ->
  Req.ano data = Some y ->
  y <> 0%Z ->
  Row.ano r = Some y' ->
  y' <> y ->
  obraTest (obraSel (Req.obra data)) r = true ->
  In (normRow currentYear (Req.ano data) r) (filtered currentYear data)
  /\ (forall m, ~ In (normRow currentYear (Req.ano data) r) (bucket currentYear data m)).
Proof.
  intros Hin Hy Hy0 Hr Hne Hobra. split.
  - rewrite filtered_as_map. apply in_map. apply filter_In. now split.
  - intros m Hm. unfold bucket in Hm. apply filter_In in Hm as [_ Hm].
    apply andb_true_iff in Hm as [_ Hm]. apply anoTest_normRow in Hm.
    rewrite Hy in Hm. destruct Hm as [H | [H | H]]; congruence.
Qed.

Lemma other_year_row_in_ytd_only_witness :
  let r := pairRow (Some 2023%Z) Key.prazo_pedido_meta Key.prazo_pedido_real 10 8 in
  In (normRow 2026 (Req.ano otherYearRequest) r) (filtered 2026 otherYearRequest)
  /\ (forall m, ~ In (normRow 2026 (Req.ano otherYearRequest) r)
                    (bucket 2026 otherYearRequest m)).
Proof.
  apply (other_year_row_in_ytd_only 2026 otherYearRequest
           (pairRow (Some 2023%Z) Key.prazo_pedido_meta Key.prazo_pedido_real 10 8)
           2024%Z 2023%Z).
  - simpl. left. reflexivity.
  - reflexivity.
  - discriminate.
  - reflexivity.
  - discriminate.
  - reflexivity.
Defined.

(** ** Further properties: CORS *)

Lemma split_cons (sep : ascii) (s : string) :
  exists h t, Str.split sep s = h :: t.
Proof.
  induction s as [|c s [h [t IH]]]; simpl.
  - now exists "", [].
  - destruct (Ascii.eqb c sep).
    + now exists "", (Str.split sep s).
    + rewrite IH. now exists (String c h), t.
Qed.

Lemma join_cons (sep : ascii) (x h : string) (t : list string) :
  Str.join sep (x :: h :: t) = (x ++ String sep (Str.join sep (h :: t)))%string.
Proof. reflexivity. Qed.

Lemma split_join (sep : ascii) (s : string) :
  Str.join sep (Str.split sep s) = s.
Proof.
  induction s as [|c s IH]; simpl; [reflexivity|].
  destruct (split_cons sep s) as [h [t Hs]]. rewrite Hs in IH |- *.
  destruct (Ascii.eqb c sep) eqn:Hc.
  - apply Ascii.eqb_eq in Hc. subst c. rewrite join_cons, IH. reflexivity.
  - destruct t as [|h' t].
    + simpl in IH |- *. now rewrite IH.
    + rewrite join_cons. rewrite join_cons in IH. rewrite <- IH. reflexivity.
Qed.

Lemma split_lacks (sep : ascii) (s : string) :
  Forall (fun x => Str.lacks sep x = true) (Str.split sep s).
Proof.
  induction s as [|c s IH]; simpl.
  - now repeat constructor.
  - destruct (Ascii.eqb c sep) eqn:Hc.
    + now constructor.
    + destruct (Str.split sep s) as [|h t]; constructor; simpl; try rewrite Hc; simpl;
        try reflexivity; try constructor.
      * now inversion IH.
      * now inversion IH.
Qed.

Lemma trimStart_lacks (sep : ascii) (s : string) :
  Str.lacks sep s = true -> Str.lacks sep (JS.trimStart s) = true.
Proof.
  induction s as [|c s IH]; simpl; [auto|].
  intros H. destruct (JS.isWhite c); [|exact H].
  apply andb_true_iff in H as [_ H]. now apply IH.
Qed.

Lemma trimEnd_lacks (sep : ascii) (s : string) :
  Str.lacks sep s = true -> Str.lacks sep (JS.trimEnd s) = true.
Proof.
  induction s as [|c s IH]; simpl; [auto|].
  intros H. apply andb_true_iff in H as [Hc Hs]. specialize (IH Hs).
  destruct (JS.trimEnd s) as [|d t].
  - destruct (JS.isWhite c); simpl; [reflexivity | now rewrite Hc].
  - cbn [Str.lacks] in IH |- *. now rewrite Hc, IH.
Qed.

Lemma trimEnd_idem (s : string) : JS.trimEnd (JS.trimEnd s) = JS.trimEnd s.
Proof.
  induction s as [|c s IH]; simpl; [reflexivity|].
  destruct (JS.trimEnd s) as [|d t] eqn:Ht.
  - destruct (JS.isWhite c) eqn:Hc; simpl; [reflexivity | now rewrite Hc].
  - cbn [JS.trimEnd]. cbn [JS.trimEnd] in IH. now rewrite IH.
Qed.

Lemma trimStart_startsClean (s : string) : startsClean (JS.trimStart s).
Proof.
  induction s as [|c s IH]; simpl; [exact I|].
  destruct (JS.isWhite c) eqn:Hc; [exact IH | exact Hc].
Qed.

Lemma trimEnd_startsClean (s : string) : startsClean s -> startsClean (JS.trimEnd s).
Proof.
  destruct s as [|c s]; simpl; [auto|]. intros Hc.
  destruct (JS.trimEnd s); [now rewrite Hc | exact Hc].
Qed.

Lemma trimStart_clean (s : string) : startsClean s -> JS.trimStart s = s.
Proof.
  destruct s as [|c s]; simpl; [reflexivity|]. now intros ->.
Qed.

Lemma trim_idem (s : string) : JS.trim (JS.trim s) = JS.trim s.
Proof.
  unfold JS.trim.
  rewrite (trimStart_clean (JS.trimEnd (JS.trimStart s))).
  - apply trimEnd_idem.
  - apply trimEnd_startsClean, trimStart_startsClean.
Qed.

Lemma includes_In (l : list string) (x : string) :
  Str.includes l x = true <-> In x l.
Proof.
  unfold Str.includes. rewrite existsb_exists. split.
  - intros [y [Hin Heq]]. apply String.eqb_eq in Heq. now subst.
  - intros Hin. exists x. split; [exact Hin | apply String.eqb_refl].
Qed.

Lemma length_app_str (a b : string) :
  String.length (a ++ b) = String.length a + String.length b.
Proof.
  induction a as [|c a IH]; simpl; [reflexivity | now rewrite IH].
Qed.

Lemma substring_0_all (s : string) : substring 0 (String.length s) s = s.
Proof.
  induction s as [|c s IH]; simpl; [reflexivity | now rewrite IH].
Qed.

Lemma substring_app_skip (p s : string) (k : nat) :
  substring (String.length p) k (p ++ s) = substring 0 k s.
Proof.
  induction p as [|c p IH]; simpl; [reflexivity | exact IH].
Qed.

Lemma substring_cut (s : string) (i : nat) :
  i <= String.length s ->
  s = (substring 0 i s ++ substring i (String.length s - i) s)%string.
Proof.
  revert i. induction s as [|c s IH]; intros i Hi.
  - simpl in Hi. now replace i with 0 by lia.
  - destruct i as [|i].
    + simpl. now rewrite substring_0_all.
    + simpl in Hi |- *. f_equal. apply IH. lia.
Qed.

Lemma endsWith_spec (s suffix : string) :
  Str.endsWith s suffix = true <-> exists p, s = (p ++ suffix)%string.
Proof.
  unfold Str.endsWith. rewrite andb_true_iff, Nat.leb_le, String.eqb_eq. split.
  - intros [Hle Hsub].
    exists (substring 0 (String.length s - String.length suffix) s).
    rewrite <- Hsub at 2.
    replace (String.length suffix)
      with (String.length s - (String.length s - String.length suffix)) at 3 by lia.
    apply substring_cut. lia.
  - intros [p ->]. rewrite length_app_str. split; [lia|].
    replace (String.length p + String.length suffix - String.length suffix)
      with (String.length p) by lia.
    rewrite substring_app_skip. apply substring_0_all.
Qed.

(** Splitting at a separator loses nothing: joining the pieces with the
    separator gives the text back, there is always at least one piece,
    and no piece contains the separator. *)
Theorem split_join_round_trip (sep : ascii) (s : string) :
  Str.join sep (Str.split sep s) = s
  /\ Str.split sep s <> []
  /\ Forall (fun x => Str.lacks sep x = true) (Str.split sep s).
Proof.
  split; [apply split_join|]. split; [|apply split_lacks].
  destruct (split_cons sep s) as [h [t ->]]. discriminate.
Qed.

(** Every entry of the allow list is a non-empty text without a comma
    and without white space at either end; an unset or empty
    CORS_ORIGIN gives the empty list. *)
Theorem allowlistOf_entries (CORS_ORIGIN : option string) :
  (forall e, In e (allowlistOf CORS_ORIGIN) ->
             e <> "" /\ JS.trim e = e /\ Str.lacks "," e = true)
  /\ allowlistOf None = []
  /\ allowlistOf (Some "") = [].
Proof.
  split; [|split; reflexivity].
  intros e He. unfold allowlistOf in He. apply filter_In in He as [He Hne].
  apply in_map_iff in He as [seg [<- Hseg]]. split; [|split].
  - unfold JS.truthy_str in Hne. apply negb_true_iff, String.eqb_neq in Hne. exact Hne.
  - apply trim_idem.
  - unfold JS.trim. apply trimEnd_lacks, trimStart_lacks.
    pose proof (split_lacks ","
                  (if JS.truthy_str (JS.nullish CORS_ORIGIN "")
                   then JS.nullish CORS_ORIGIN "" else "")) as Hall.
    rewrite Forall_forall in Hall. now apply Hall.
Qed.

Lemma allowlistOf_entries_witness :
  "https://a.example" <> ""
  /\ JS.trim "https://a.example" = "https://a.example"
  /\ Str.lacks "," "https://a.example" = true.
Proof.
  apply (proj1 (allowlistOf_entries (Some " https://a.example , ,https://b.example"))).
  vm_compute. left. reflexivity.
Defined.

(** An origin is allowed exactly when the header is absent or empty, or
    its URL parses with the host localhost, 127.0.0.1 or a host ending
    in ".vercel.app", or the origin is, as written, in the allow list. *)
Theorem isAllowedOrigin_iff (URL_hostname : string -> Outcome string)
    (allowlist : list string) (origin : option string) :
  isAllowedOrigin URL_hostname allowlist origin = true <->
  origin = None
  \/ origin = Some ""
  \/ exists o,
       origin = Some o
       /\ ((exists hostname,
              URL_hostname o = Returned hostname
              /\ (hostname = "localhost" \/ hostname = "127.0.0.1"
                  \/ exists sub, hostname = (sub ++ ".vercel.app")%string))
           \/ In o allowlist).
Proof.
  destruct origin as [o|]; simpl; [|tauto].
  destruct o as [|c o]; simpl; [tauto|].
  set (origin := String c o).
  destruct (URL_hostname origin) as [hostname|err] eqn:Hurl.
  - destruct ((hostname =? "localhost") || (hostname =? "127.0.0.1")) eqn:Hlocal.
    + split; [|reflexivity]. intros _. right. right. exists origin. split; [reflexivity|].
      left. exists hostname. split; [exact Hurl|].
      apply orb_true_iff in Hlocal as [H | H]; apply String.eqb_eq in H; tauto.
    + apply orb_false_iff in Hlocal as [Hl1 Hl2].
      apply String.eqb_neq in Hl1, Hl2.
      destruct (Str.endsWith hostname ".vercel.app") eqn:Hends.
      * split; [|reflexivity]. intros _. right. right. exists origin. split; [reflexivity|].
        left. exists hostname. split; [exact Hurl|].
        right. right. now apply endsWith_spec.
      * rewrite includes_In. split.
        -- intros Hin. right. right. exists origin. split; [reflexivity | now right].
        -- intros [H | [H | [o' [Ho' [[h [Hh Hhost]] | Hin]]]]]; try discriminate.
           ++ injection Ho' as <-. rewrite Hurl in Hh. injection Hh as <-.
              destruct Hhost as [H | [H | H]]; try contradiction.
              apply endsWith_spec in H. congruence.
           ++ now injection Ho' as <-.
  - rewrite includes_In. split.
    + intros Hin. right. right. exists origin. split; [reflexivity | now right].
    + intros [H | [H | [o' [Ho' [[h [Hh _]] | Hin]]]]]; try discriminate.
      * injection Ho' as <-. rewrite Hurl in Hh. discriminate.
      * now injection Ho' as <-.
Qed.

Lemma isAllowedOrigin_iff_witness :
  isAllowedOrigin localResolver ["https://a.example"] (Some "http://localhost:5173") = true
  /\ isAllowedOrigin localResolver ["https://a.example"] (Some "https://a.example") = true.
Proof.
  split.
  - apply (proj2 (isAllowedOrigin_iff localResolver ["https://a.example"]
                    (Some "http://localhost:5173"))).
    right. right. exists "http://localhost:5173". split; [reflexivity|].
    left. exists "localhost". split; [reflexivity | now left].
  - apply (proj2 (isAllowedOrigin_iff localResolver ["https://a.example"]
                    (Some "https://a.example"))).
    right. right. exists "https://a.example". split; [reflexivity|].
    right. simpl. now left.
Defined.

(** ** Further properties: the text of the narrative service *)







(** ** Further properties: the /analyze route *)

Section AnalyzeFacts.

Variable String_of : Json -> string.
Variable create : Prompt -> Outcome (option string).
Variable JSON_parse : string -> Outcome Json.

Let run := analyze String_of create JSON_parse.
Let ask (body : Body.t) := AnalysisPrompt (isTodos String_of (Body.mes body)) body.

Lemma analyze_cases (body : Body.t) :
  (truthy_json (Body.ano body) = false \/ truthy_json (Body.resumo body) = false)
    /\ run body = (Missing400, [])
  \/ truthy_json (Body.ano body) = true /\ truthy_json (Body.resumo body) = true
     /\ ((exists err, create (ask body) = Thrown err
                      /\ run body = (Error500 err, [ask body]))
         \/ exists text, create (ask body) = Returned text
            /\ ((exists data, JSON_parse (cleanText text) = Returned data
                              /\ run body = (Data200 data, [ask body]))
                \/ exists perr, JSON_parse (cleanText text) = Thrown perr
                   /\ ((exists err,
                           create (RepairPrompt (cleanText text)) = Thrown err
                           /\ run body =
                              (Error500 err, [ask body; RepairPrompt (cleanText text)]))
                       \/ exists fixText,
                            create (RepairPrompt (cleanText text)) = Returned fixText
                            /\ ((exists data,
                                    JSON_parse (cleanText fixText) = Returned data
                                    /\ run body =
                                       (Data200 data,
                                        [ask body; RepairPrompt (cleanText text)]))
                                \/ exists err,
                                     JSON_parse (cleanText fixText) = Thrown err
                                     /\ run body =
                                        (Error500 err,
                                         [ask body; RepairPrompt (cleanText text)]))))).
Proof.
  unfold run, ask, analyze.
  destruct (truthy_json (Body.ano body)) eqn:Hano; simpl; [|left; auto].
  destruct (truthy_json (Body.resumo body)) eqn:Hres; simpl; [|left; auto].
  right. split; [reflexivity|]. split; [reflexivity|].
  destruct (create (AnalysisPrompt (isTodos String_of (Body.mes body)) body))
    as [text|err]; [right; exists text; split; [reflexivity|] | left; eauto].
  destruct (JSON_parse (cleanText text)) as [data|perr]; [left; eauto|].
  right. exists perr. split; [reflexivity|].
  destruct (create (RepairPrompt (cleanText text))) as [fixText|err]; [right | left; eauto].
  exists fixText. split; [reflexivity|].
  destruct (JSON_parse (cleanText fixText)) as [data|err]; [left | right]; eauto.
Qed.

End AnalyzeFacts.

(** The steps of [analyze], for a proof by cases: [Hrun] names the
    equation that gives the response and the calls. *)
Ltac analyze_by_cases String_of create JSON_parse body :=
  destruct (analyze_cases String_of create JSON_parse body)
    as [[Hfalsy Hrun] | [Hano [Hres Hc]]];
  [| destruct Hc as [[err [Hask Hrun]] | [text [Hask Hd]]];
     [| destruct Hd as [[data0 [Hparse Hrun]] | [perr [Hparse He]]];
        [| destruct He as [[err [Hfix Hrun]] | [fixText [Hfix Hf]]];
           [| destruct Hf as [[data0 [Hparse2 Hrun]] | [err [Hparse2 Hrun]]]]]]];
  rewrite Hrun; simpl.


(** The service is called at most twice.  The first call is the analysis
    prompt of the body; a second call happens only after the first answer
    failed to parse, and it is the repair prompt of that very text. *)
Theorem analyze_calls_bounded (String_of : Json -> string)
    (create : Prompt -> Outcome (option string))
    (JSON_parse : string -> Outcome Json) (body : Body.t) :
  let calls := snd (analyze String_of create JSON_parse body) in
  List.length calls <= 2
  /\ (forall first rest,
        calls = first :: rest ->
        first = AnalysisPrompt (isTodos String_of (Body.mes body)) body)
  /\ (forall first second rest,
        calls = first :: second :: rest ->
        rest = []
        /\ exists text perr,
             create first = Returned text
             /\ JSON_parse (cleanText text) = Thrown perr
             /\ second = RepairPrompt (cleanText text)).
Proof.
  cbv zeta.
  analyze_by_cases String_of create JSON_parse body;
    (split; [lia|]; split;
     [intros first rest Hc;
      first [discriminate Hc | now injection Hc as <- _]
     |intros first second rest Hc;
      first [discriminate Hc
            | injection Hc as <- <- <-; split; [reflexivity | eauto]]]).
Qed.

(** The route answers [ok: true] exactly when both parameters are truthy
    and the data is what [JSON.parse] made of the first answer or, that
    one being unparseable, of the answer to the single repair call. *)
Theorem analyze_success_iff (String_of : Json -> string)
    (create : Prompt -> Outcome (option string))
    (JSON_parse : string -> Outcome Json) (body : Body.t) (data : Json) :
  fst (analyze String_of create JSON_parse body) = Data200 data <->
  truthy_json (Body.ano body) = true
  /\ truthy_json (Body.resumo body) = true
  /\ exists text,
       create (AnalysisPrompt (isTodos String_of (Body.mes body)) body) = Returned text
       /\ (JSON_parse (cleanText text) = Returned data
           \/ exists perr fixText,
                JSON_parse (cleanText text) = Thrown perr
                /\ create (RepairPrompt (cleanText text)) = Returned fixText
                /\ JSON_parse (cleanText fixText) = Returned data).
Proof.
  analyze_by_cases String_of create JSON_parse body; split.
  all: try (intros H; discriminate H).
  all: try (intros [Ha [Hr _]]; destruct Hfalsy; congruence).
  all: try (intros [_ [_ [t [Ht _]]]]; congruence).
  - intros H. injection H as <-. repeat split; try assumption.
    exists text. split; [exact Hask | now left].
  - intros [_ [_ [t [Ht [Hp | [pe [ft [Hp _]]]]]]]]; congruence.
  - intros [_ [_ [t [Ht [Hp | [pe [ft [Hp [Hf _]]]]]]]]]; congruence.
  - intros H. injection H as <-. repeat split; try assumption.
    exists text. split; [exact Hask|]. right. exists perr, fixText. auto.
  - intros [_ [_ [t [Ht [Hp | [pe [ft [Hp [Hf Hp2]]]]]]]]]; congruence.
  - intros [_ [_ [t [Ht [Hp | [pe [ft [Hp [Hf Hp2]]]]]]]]]; congruence.
Qed.

Lemma analyze_calls_bounded_witness :
  @nil Prompt = []
  /\ exists text perr,
       repairingService (AnalysisPrompt (isTodos textOf (Body.mes fullBody)) fullBody)
         = Returned text
       /\ nullParser (cleanText text) = Thrown perr
       /\ RepairPrompt "sorry" = RepairPrompt (cleanText text).
Proof.
  apply (proj2 (proj2 (analyze_calls_bounded textOf repairingService nullParser fullBody))
           (AnalysisPrompt (isTodos textOf (Body.mes fullBody)) fullBody)
           (RepairPrompt "sorry") []).
  reflexivity.
Defined.

Lemma analyze_success_iff_witness :
  fst (analyze textOf repairingService nullParser fullBody) = Data200 JNull.
Proof.
  apply (proj2 (analyze_success_iff textOf repairingService nullParser fullBody JNull)).
  split; [reflexivity|]. split; [reflexivity|].
  exists (Some "sorry"). split; [reflexivity|].
  right. exists "Unexpected token", (Some " ```JSON null```").
  repeat split; reflexivity.
Defined.

(** ** Further properties: [extractStructured] *)

Lemma find_isJsonPart (l : list Part.t) (c : Part.t) :
  find isJsonPart l = Some c ->
  exists v, Part.parsed c = Some v /\ truthy_json (Some v) = true.
Proof.
  intros Hfind. apply find_some in Hfind as [_ Hc].
  unfold isJsonPart in Hc. destruct (Part.type c); [|discriminate].
  apply andb_true_iff in Hc as [_ Hc].
  destruct (Part.parsed c) as [v|]; [now exists v | discriminate].
Qed.

(** [extractStructured] prefers parsed data to text: when some part of
    the first output item is of type output_json with truthy [parsed],
    the result is the [parsed] of the first such part, whatever the
    texts and the parser; it throws only when there is no such part and
    neither the first text part nor [output_text] parses. *)
Theorem extractStructured_priority (JSON_parse : string -> Outcome Json)
    (resp : option Resp.t) :
  (forall c, find isJsonPart (contentOf resp) = Some c ->
             exists v, Part.parsed c = Some v
                       /\ extractStructured JSON_parse resp = Returned v)
  /\ (forall message, extractStructured JSON_parse resp = Thrown message ->
        message = "Resposta sem JSON estruturado"
        /\ find isJsonPart (contentOf resp) = None
        /\ (forall c t, find isTextPart (contentOf resp) = Some c ->
                        Part.text c = Some t -> t <> "" ->
                        tryParse JSON_parse t = None)
        /\ (forall r t, resp = Some r -> Resp.output_text r = Some t -> t <> "" ->
                        tryParse JSON_parse t = None)).
Proof.
  split.
  - intros c Hc. destruct (find_isJsonPart _ _ Hc) as [v [Hv Ht]].
    exists v. split; [exact Hv|]. unfold extractStructured. now rewrite Hc, Hv, Ht.
  - intros message Hthrow. unfold extractStructured in Hthrow.
    destruct (find isJsonPart (contentOf resp)) as [c|] eqn:Hc.
    { destruct (find_isJsonPart _ _ Hc) as [v [Hv Ht]].
      rewrite Hv, Ht in Hthrow. discriminate. }
    assert (Hlast : forall msg, fromOutputText JSON_parse resp = Thrown msg ->
              msg = "Resposta sem JSON estruturado"
              /\ (forall r t, resp = Some r -> Resp.output_text r = Some t -> t <> "" ->
                              tryParse JSON_parse t = None)).
    { intros msg Hmsg. unfold fromOutputText in Hmsg.
      destruct resp as [r|]; [|split; [congruence | discriminate]].
      destruct (Resp.output_text r) as [t|] eqn:Ht;
        [|split; [congruence | intros r' t' Hr' Ht'; congruence]].
      destruct (JS.truthy_str t) eqn:Htruthy.
      - destruct (tryParse JSON_parse t) eqn:Hp; [discriminate|].
        split; [congruence|]. intros r' t' Hr' Ht' _. congruence.
      - split; [congruence|]. intros r' t' Hr' Ht' Hne.
        assert (t' = t) by congruence. subst t'.
        unfold JS.truthy_str in Htruthy.
        apply negb_false_iff, String.eqb_eq in Htruthy. contradiction. }
    unfold fromTextPart in Hthrow.
    destruct (find isTextPart (contentOf resp)) as [c|] eqn:Htp.
    + destruct (Part.text c) as [t|] eqn:Ht.
      * destruct (JS.truthy_str t) eqn:Htruthy.
        -- destruct (tryParse JSON_parse t) eqn:Hp; [discriminate|].
           destruct (Hlast _ Hthrow) as [Hm Hout].
           repeat split; try assumption. intros c' t' Hc' Ht' _. congruence.
        -- destruct (Hlast _ Hthrow) as [Hm Hout].
           repeat split; try assumption. intros c' t' Hc' Ht' Hne.
           assert (t' = t) by congruence. subst t'.
           unfold JS.truthy_str in Htruthy.
           apply negb_false_iff, String.eqb_eq in Htruthy. contradiction.
      * destruct (Hlast _ Hthrow) as [Hm Hout].
        repeat split; try assumption. intros c' t' Hc' Ht'. congruence.
    + destruct (Hlast _ Hthrow) as [Hm Hout].
      repeat split; try assumption. intros c' t' Hc'. discriminate.
Qed.

Lemma extractStructured_priority_witness :
  exists v,
    Part.parsed (Part.mk (Some "output_json") (Some (JBool true)) None) = Some v
    /\ extractStructured nullParser (Some mixedResp) = Returned v.
Proof.
  apply (proj1 (extractStructured_priority nullParser (Some mixedResp))).
  reflexivity.
Defined.

(** ** Further properties: the entity label of the response *)

Lemma obraSel_Some (obra : option string) (o : string) :
  obraSel obra = Some o -> obra = Some o /\ o <> "" /\ o <> "Todas".
Proof.
  destruct obra as [o'|]; simpl; [|discriminate].
  unfold JS.truthy_str.
  destruct (o' =? "") eqn:He; simpl; [discriminate|].
  destruct (o' =? "Todas") eqn:Ht; simpl; [discriminate|].
  intros H. injection H as <-.
  apply String.eqb_neq in He, Ht. auto.
Qed.

(** The [obra] of the response is never empty, and when it is not
    "Todas" it is the label of the request and every row that was
    summarized, in YTD and in the months, belongs to that entity. *)
Theorem response_obra_labels_rows (currentYear : Z) (data : Req.t) :
  let label := Resumo.obra (resumoIA currentYear data) in
  label <> ""
  /\ (label <> "Todas" ->
      Req.obra data = Some label
      /\ forall r, In r (filtered currentYear data) -> Row.obra r = label).
Proof.
  cbv zeta. unfold resumoIA. simpl.
  destruct (obraSel (Req.obra data)) as [o|] eqn:Hsel.
  - destruct (obraSel_Some _ _ Hsel) as [Hobra [Hne Hnt]].
    assert (Htruthy : JS.truthy_str o = true).
    { unfold JS.truthy_str. apply negb_true_iff. now apply String.eqb_neq. }
    rewrite Htruthy. split; [exact Hne|]. intros _. split; [exact Hobra|].
    intros r Hr. unfold filtered in Hr. rewrite Hsel in Hr.
    apply filter_In in Hr as [_ Hr]. unfold obraTest in Hr. rewrite Htruthy in Hr.
    now apply String.eqb_eq.
  - split; [discriminate|]. intros H. now contradiction H.
Qed.

Lemma response_obra_labels_rows_witness :
  Req.obra (requestFor (Some "X")) = Some "X"
  /\ forall r, In r (filtered 2026 (requestFor (Some "X"))) -> Row.obra r = "X".
Proof.
  apply (proj2 (response_obra_labels_rows 2026 (requestFor (Some "X")))).
  discriminate.
Defined.

Lemma bucket_rows_witness :
  In (normRow 2026 (Req.ano undatedRequest)
        (pairRow None Key.prazo_pedido_meta Key.prazo_pedido_real 10 8))
     (bucket 2026 undatedRequest "JAN").
Proof.
  apply (proj2 (bucket_rows 2026 undatedRequest "JAN" _)).
  exists (pairRow None Key.prazo_pedido_meta Key.prazo_pedido_real 10 8).
  split; [simpl; now left|]. split; [reflexivity|]. split; [reflexivity|].
  split; [reflexivity|]. simpl. right. now left.
Defined.

